(** * Program Selection Hub: the two screens of [frontend/src/App.js]

    A shallow embedding of the React application in [App.js]:
    the JavaScript primitives the screens rely on ([String.prototype.replace],
    [parseInt], [%], array indexing, [Array.prototype.findIndex], template
    literals), the [ProgramSelection] screen and the [ProgramDetails] screen,
    each as an event-driven state machine whose steps return the side
    effects they request (HTTP calls, toasts, timers, navigation). *)

From Stdlib Require Import List String Ascii ZArith Lia Bool Arith.
From Stdlib Require Import DecimalString DecimalZ DecimalPos DecimalN.
Import ListNotations.

Local Open Scope string_scope.
Local Open Scope Z_scope.

(** ** JavaScript primitives *)

Module JS.

(** A JavaScript string is modelled by a [string]; each [ascii] stands for
    one code unit below 256. *)

(** A JavaScript Number holding an integer, or NaN.  The integer is the
    mathematical value; it is the exact value of the Number as long as it
    is a safe integer, at most [MAX_SAFE_INTEGER] in absolute value. Beyond
    that range a Number is a rounded double or an infinity, which this type
    does not represent: the properties below of the index computed from a
    name are stated for numbers inside the range. Negative zero is
    identified with zero: the program only subtracts from it, takes
    remainders and uses it as an array index, none of which tells the two
    apart. *)
Inductive number : Type :=
  | NaN : number
  | Int : Z -> number.

Definition MAX_SAFE_INTEGER : Z := 2 ^ 53 - 1.

(** [a - b] on Numbers, exact while operands and result are safe
    integers. *)
Definition sub (a b : number) : number :=
  match a, b with
  | Int x, Int y => Int (x - y)
  | _, _ => NaN
  end.

(** [a % b] on Numbers: the result takes the sign of the dividend, and is
    NaN when the divisor is zero. *)
Definition rem (a b : number) : number :=
  match a, b with
  | Int x, Int y => if y =? 0 then NaN else Int (Z.rem x y)
  | _, _ => NaN
  end.

(** [arr.length]. *)
Definition length {A : Type} (arr : list A) : number :=
  Int (Z.of_nat (List.length arr)).

(** [arr[k]]: [undefined] (here [None]) unless [k] is an integer index
    inside the array. *)
Definition get {A : Type} (arr : list A) (k : number) : option A :=
  match k with
  | NaN => None
  | Int z => if z <? 0 then None else nth_error arr (Z.to_nat z)
  end.

(** [arr.findIndex(f)]: the first index whose element satisfies [f],
    scanning from index [k]; -1 when there is none. *)
Fixpoint findIndex_from {A : Type} (f : A -> bool) (arr : list A) (k : Z) : Z :=
  match arr with
  | [] => -1
  | x :: rest => if f x then k else findIndex_from f rest (k + 1)
  end.

Definition findIndex {A : Type} (f : A -> bool) (arr : list A) : number :=
  Int (findIndex_from f arr 0).

(** [s.replace(pat, rep)] with a string pattern: only the first occurrence
    of [pat] is replaced. The replacement is taken literally (the program's
    replacement is the empty string, which has no [$] patterns). *)
Fixpoint drop (n : nat) (s : string) : string :=
  match n, s with
  | O, _ => s
  | S n', String _ s' => drop n' s'
  | S _, EmptyString => EmptyString
  end.

Fixpoint replace (pat rep s : string) : string :=
  if String.prefix pat s then rep ++ drop (String.length pat) s
  else match s with
       | EmptyString => EmptyString
       | String c s' => String c (replace pat rep s')
       end.

(** White space and line terminators that [parseInt] skips, among the code
    units below 256: TAB, LF, VT, FF, CR, SP and NBSP. *)
Definition isWhiteSpace (c : ascii) : bool :=
  let n := nat_of_ascii c in
  ((9 <=? n) && (n <=? 13) || (n =? 32) || (n =? 160))%nat.

Fixpoint trimStart (s : string) : string :=
  match s with
  | String c s' => if isWhiteSpace c then trimStart s' else s
  | EmptyString => EmptyString
  end.

(** The value of [c] as a digit in radix [R] (10 or 16), if it is one. *)
Definition digitValue (R : Z) (c : ascii) : option Z :=
  let n := Z.of_nat (nat_of_ascii c) in
  let v :=
    if (48 <=? n) && (n <=? 57) then Some (n - 48)
    else if (97 <=? n) && (n <=? 122) then Some (n - 87)
    else if (65 <=? n) && (n <=? 90) then Some (n - 55)
    else None in
  match v with
  | Some d => if d <? R then Some d else None
  | None => None
  end.

(** The longest prefix of radix-[R] digits of [s], read left to right on top
    of [acc]; [seen] tells whether a digit has been read. *)
Fixpoint parseDigits (R : Z) (s : string) (acc : Z) (seen : bool) : option Z :=
  match s with
  | String c s' =>
      match digitValue R c with
      | Some d => parseDigits R s' (acc * R + d) true
      | None => if seen then Some acc else None
      end
  | EmptyString => if seen then Some acc else None
  end.

(** [parseInt(s)] with no radix argument. The result is the mathematical
    value of the digits, which is the Number [parseInt] returns as long as
    that value is a safe integer. *)
Definition parseInt (s : string) : number :=
  let S1 := trimStart s in
  let '(sign, S2) :=
    match S1 with
    | String "-" r => (-1, r)
    | String "+" r => (1, r)
    | _ => (1, S1)
    end in
  let '(R, S3) :=
    match S2 with
    | String "0" (String "x" r) => (16, r)
    | String "0" (String "X" r) => (16, r)
    | _ => (10, S2)
    end in
  match parseDigits R S3 0 false with
  | None => NaN
  | Some v => Int (sign * v)
  end.

(** [`${n}`] for an integer Number [n] (below 10^21 in absolute value,
    where JavaScript switches to exponent notation): its decimal digits,
    with a minus sign when negative. *)
Definition toString (n : Z) : string :=
  NilZero.string_of_int (Z.to_int n).

End JS.

(** ** Data model and side effects *)

(** A program record, as the backend returns it. *)
Record Program : Type := mkProgram {
  id : string;
  name : string;
  title : string;
  description : string;
  created_at : string
}.

(** The body of the selection request. *)
Record SelectBody : Type := mkSelectBody {
  program_id : string;
  program_name : string;
  user_session : string
}.

(** What a handler asks of the world outside the component. [setTimeout]
    carries the program captured by its callback, which navigates to that
    program's detail route when the timer fires. *)
Inductive Effect : Type :=
  | axios_get (url : string)
  | axios_post (url : string) (body : SelectBody)
  | toast_success (message : string)
  | toast_error (message : string)
  | setTimeout (captured : Program) (delay : Z)
  | navigate (path : string).

(** The route table of [App]. *)
Inductive Screen : Type := ProgramSelectionScreen | ProgramDetailsScreen.

Definition Routes : list (string * Screen) :=
  [ ("/", ProgramSelectionScreen);
    ("/program/:programId", ProgramDetailsScreen) ].

Definition remove_nth {A : Type} (k : nat) (l : list A) : list A :=
  (firstn k l ++ skipn (S k) l)%list.

(** [API], from [process.env.REACT_APP_BACKEND_URL]. *)
Definition API (BACKEND_URL : string) : string := BACKEND_URL ++ "/api".

(** ** The ProgramSelection screen *)

Module ProgramSelection.

Section WithBackend.

Variable BACKEND_URL : string.

(** The three [useState] cells, followed by what is in flight: whether the
    list request is pending, the programs captured by the pending selection
    requests, and the programs captured by the pending timers. *)
Record State : Type := mkState {
  programs : list Program;
  selectedProgram : option Program;
  loading : bool;
  fetching : bool;
  posting : list Program;
  timers : list Program
}.

Definition gradients : list string :=
  [ "from-emerald-400 to-teal-500";
    "from-teal-400 to-cyan-500";
    "from-cyan-400 to-blue-500";
    "from-blue-400 to-indigo-500";
    "from-indigo-400 to-violet-500";
    "from-violet-400 to-purple-500";
    "from-purple-400 to-pink-500";
    "from-pink-400 to-rose-500";
    "from-rose-400 to-orange-500";
    "from-orange-400 to-amber-500";
    "from-amber-400 to-yellow-500";
    "from-yellow-400 to-lime-500";
    "from-lime-400 to-green-500";
    "from-green-400 to-emerald-500";
    "from-red-400 to-pink-500" ].

(** [selectedProgram?.id === program.id] *)
Definition isSelected (sel : option Program) (program : Program) : bool :=
  match sel with
  | None => false
  | Some q => String.eqb (id q) (id program)
  end.

(** [programs.findIndex(p => p.id === program.id)] *)
Definition programIndex (progs : list Program) (program : Program) : JS.number :=
  JS.findIndex (fun p => String.eqb (id p) (id program)) progs.

(** [gradients[programIndex % gradients.length]] *)
Definition gradientClass (progs : list Program) (program : Program) : option string :=
  JS.get gradients (JS.rem (programIndex progs program) (JS.length gradients)).

(** One card of the grid. [onClick] is the program the card's click handler
    passes to [handleProgramSelect]; the handler is attached to the card
    whatever [isSelected] is, and only the inner button gets [disabled]. *)
Record Card : Type := mkCard {
  key : string;
  card_selected : bool;
  card_gradient : option string;
  card_title : string;
  card_badge : string;
  card_description : string;
  button_disabled : bool;
  button_label : string;
  onClick : Program
}.

Inductive View : Type :=
  | LoadingView
  | GridView (cards : list Card).

Definition renderCard (s : State) (program : Program) : Card :=
  let sel := isSelected (selectedProgram s) program in
  {| key := id program;
     card_selected := sel;
     card_gradient := gradientClass (programs s) program;
     card_title := name program;
     card_badge := title program;
     card_description := description program;
     button_disabled := sel;
     button_label := if sel then "Selected" else "Select Program";
     onClick := program |}.

Definition render (s : State) : View :=
  if loading s then LoadingView
  else GridView (map (renderCard s) (programs s)).

(** The cards on screen. *)
Definition cards (s : State) : list Card :=
  match render s with
  | LoadingView => []
  | GridView cs => cs
  end.

(** First render and the mount effect, which calls [fetchPrograms]. *)
Definition mount : State * list Effect :=
  ({| programs := []; selectedProgram := None; loading := true;
      fetching := true; posting := []; timers := [] |},
   [axios_get (API BACKEND_URL ++ "/programs")]).

(** [fetchPrograms] after the [await]: the request resolved with [data]. *)
Definition fetchPrograms_then (s : State) (data : list Program) : State * list Effect :=
  ({| programs := data; selectedProgram := selectedProgram s; loading := false;
      fetching := false; posting := posting s; timers := timers s |},
   []).

(** [fetchPrograms], the [catch] branch. *)
Definition fetchPrograms_catch (s : State) : State * list Effect :=
  ({| programs := programs s; selectedProgram := selectedProgram s; loading := false;
      fetching := false; posting := posting s; timers := timers s |},
   [toast_error "Failed to load programs"]).

(** [handleProgramSelect] up to the [await]; [now] is [Date.now()]. *)
Definition handleProgramSelect (s : State) (program : Program) (now : Z)
  : State * list Effect :=
  ({| programs := programs s; selectedProgram := Some program; loading := loading s;
      fetching := fetching s; posting := (posting s ++ [program])%list; timers := timers s |},
   [axios_post (API BACKEND_URL ++ "/select-program")
      {| program_id := id program;
         program_name := name program;
         user_session := "session_" ++ JS.toString now |}]).

(** [handleProgramSelect] after the [await]: the request for [program]
    succeeded. [s] no longer lists that request as pending. *)
Definition handleProgramSelect_then (s : State) (program : Program)
  : State * list Effect :=
  ({| programs := programs s; selectedProgram := selectedProgram s; loading := loading s;
      fetching := fetching s; posting := posting s; timers := (timers s ++ [program])%list |},
   [toast_success ("Selected " ++ name program ++ " successfully!");
    setTimeout program 1000]).

(** [handleProgramSelect], the [catch] branch. *)
Definition handleProgramSelect_catch (s : State) (program : Program)
  : State * list Effect :=
  ({| programs := programs s; selectedProgram := None; loading := loading s;
      fetching := fetching s; posting := posting s; timers := timers s |},
   [toast_error "Failed to select program"]).

(** The callback given to [setTimeout]. *)
Definition timer_callback (program : Program) : list Effect :=
  [navigate ("/program/" ++ id program)].

Definition settle_post (s : State) (k : nat) : State :=
  {| programs := programs s; selectedProgram := selectedProgram s; loading := loading s;
     fetching := fetching s; posting := remove_nth k (posting s); timers := timers s |}.

Definition settle_timer (s : State) (k : nat) : State :=
  {| programs := programs s; selectedProgram := selectedProgram s; loading := loading s;
     fetching := fetching s; posting := posting s; timers := remove_nth k (timers s) |}.

(** What can happen to a mounted screen: the list request settles, the user
    clicks the [i]-th card (at time [now]), the [k]-th pending selection
    request settles, the [k]-th pending timer fires. *)
Inductive Event : Type :=
  | ProgramsResolved (data : list Program)
  | ProgramsRejected
  | CardClicked (i : nat) (now : Z)
  | PostResolved (k : nat)
  | PostRejected (k : nat)
  | TimerFired (k : nat).

(** One event; [None] when the event cannot happen in [s]. *)
Definition step (s : State) (e : Event) : option (State * list Effect) :=
  match e with
  | ProgramsResolved data =>
      if fetching s then Some (fetchPrograms_then s data) else None
  | ProgramsRejected =>
      if fetching s then Some (fetchPrograms_catch s) else None
  | CardClicked i now =>
      match render s with
      | LoadingView => None
      | GridView cards =>
          match nth_error cards i with
          | Some c => Some (handleProgramSelect s (onClick c) now)
          | None => None
          end
      end
  | PostResolved k =>
      match nth_error (posting s) k with
      | Some program => Some (handleProgramSelect_then (settle_post s k) program)
      | None => None
      end
  | PostRejected k =>
      match nth_error (posting s) k with
      | Some program => Some (handleProgramSelect_catch (settle_post s k) program)
      | None => None
      end
  | TimerFired k =>
      match nth_error (timers s) k with
      | Some program => Some (settle_timer s k, timer_callback program)
      | None => None
      end
  end.

(** A sequence of events, with the effects in the order they were requested. *)
Fixpoint run (s : State) (evs : list Event) : option (State * list Effect) :=
  match evs with
  | [] => Some (s, [])
  | e :: rest =>
      match step s e with
      | None => None
      | Some (s1, out1) =>
          match run s1 rest with
          | None => None
          | Some (s2, out2) => Some (s2, (out1 ++ out2)%list)
          end
      end
  end.

Inductive reachable : State -> Prop :=
  | reachable_mount : reachable (fst mount)
  | reachable_step s e s' out :
      reachable s -> step s e = Some (s', out) -> reachable s'.

End WithBackend.

End ProgramSelection.

(** ** The ProgramDetails screen *)

Module ProgramDetails.

Section WithBackend.

Variable BACKEND_URL : string.

(** The route parameter and the two [useState] cells, followed by the
    identifiers captured by the list of pending requests. *)
Record State : Type := mkState {
  programId : string;
  program : option Program;
  loading : bool;
  fetching : list string
}.

Definition gradients : list string :=
  [ "from-emerald-400 to-teal-500";
    "from-teal-400 to-cyan-500";
    "from-cyan-400 to-blue-500";
    "from-blue-400 to-indigo-500";
    "from-indigo-400 to-violet-500";
    "from-violet-400 to-purple-500";
    "from-purple-400 to-pink-500";
    "from-pink-400 to-rose-500";
    "from-rose-400 to-orange-500";
    "from-orange-400 to-amber-500";
    "from-amber-400 to-yellow-500";
    "from-yellow-400 to-lime-500";
    "from-lime-400 to-green-500";
    "from-green-400 to-emerald-500";
    "from-red-400 to-pink-500" ].

(** [parseInt(program.name.replace('Prg', '')) - 1] *)
Definition programIndex (p : Program) : JS.number :=
  JS.sub (JS.parseInt (JS.replace "Prg" "" (name p))) (JS.Int 1).

(** [gradients[programIndex % gradients.length]] *)
Definition gradientClass (p : Program) : option string :=
  JS.get gradients (JS.rem (programIndex p) (JS.length gradients)).

(** What the detail page shows of a record. [details_created] is the
    argument handed to [new Date(...)]; the text shown for it is produced by
    the browser's [toLocaleDateString]. *)
Record Details : Type := mkDetails {
  details_gradient : option string;
  details_name : string;
  details_title : string;
  details_description : string;
  details_id : string;
  details_created : string
}.

(** The three branches of the component. The not-found branch and the
    details branch both contain the "Back to Programs" button. *)
Inductive View : Type :=
  | LoadingView
  | NotFoundView
  | DetailsView (d : Details).

Definition render (s : State) : View :=
  if loading s then LoadingView
  else match program s with
       | None => NotFoundView
       | Some p =>
           DetailsView
             {| details_gradient := gradientClass p;
                details_name := name p;
                details_title := title p;
                details_description := description p;
                details_id := id p;
                details_created := created_at p |}
       end.

(** [fetchProgram] up to the [await], for the route parameter of [s]. *)
Definition fetchProgram (s : State) : State * list Effect :=
  ({| programId := programId s; program := program s; loading := loading s;
      fetching := (fetching s ++ [programId s])%list |},
   [axios_get (API BACKEND_URL ++ "/programs/" ++ programId s)]).

(** First render for the route parameter [pid], and the mount effect. *)
Definition mount (pid : string) : State * list Effect :=
  fetchProgram {| programId := pid; program := None; loading := true; fetching := [] |}.

(** The route parameter becomes [pid] while the screen stays mounted: the
    effect runs again only when the value differs from the previous one. *)
Definition paramChanged (s : State) (pid : string) : State * list Effect :=
  if String.eqb pid (programId s) then (s, [])
  else fetchProgram {| programId := pid; program := program s; loading := loading s;
                       fetching := fetching s |}.

(** [fetchProgram] after the [await]: the request resolved with [data]. *)
Definition fetchProgram_then (s : State) (data : Program) : State * list Effect :=
  ({| programId := programId s; program := Some data; loading := false;
      fetching := fetching s |},
   []).

(** [fetchProgram], the [catch] branch. *)
Definition fetchProgram_catch (s : State) : State * list Effect :=
  ({| programId := programId s; program := program s; loading := false;
      fetching := fetching s |},
   [toast_error "Failed to load program details"]).

(** The click handler of the "Back to Programs" button. *)
Definition backToPrograms : list Effect := [navigate "/"].

Definition settle_get (s : State) (k : nat) : State :=
  {| programId := programId s; program := program s; loading := loading s;
     fetching := remove_nth k (fetching s) |}.

(** What can happen to a mounted screen: the route parameter changes, the
    [k]-th pending request settles, the user clicks the back button. *)
Inductive Event : Type :=
  | ParamChanged (pid : string)
  | GetResolved (k : nat) (data : Program)
  | GetRejected (k : nat)
  | BackClicked.

Definition step (s : State) (e : Event) : option (State * list Effect) :=
  match e with
  | ParamChanged pid => Some (paramChanged s pid)
  | GetResolved k data =>
      match nth_error (fetching s) k with
      | Some _ => Some (fetchProgram_then (settle_get s k) data)
      | None => None
      end
  | GetRejected k =>
      match nth_error (fetching s) k with
      | Some _ => Some (fetchProgram_catch (settle_get s k))
      | None => None
      end
  | BackClicked =>
      match render s with
      | LoadingView => None
      | _ => Some (s, backToPrograms)
      end
  end.

Fixpoint run (s : State) (evs : list Event) : option (State * list Effect) :=
  match evs with
  | [] => Some (s, [])
  | e :: rest =>
      match step s e with
      | None => None
      | Some (s1, out1) =>
          match run s1 rest with
          | None => None
          | Some (s2, out2) => Some (s2, (out1 ++ out2)%list)
          end
      end
  end.

(** Whether a trace contains a request that resolved with a record. *)
Definition is_resolved (e : Event) : bool :=
  match e with
  | GetResolved _ _ => true
  | _ => false
  end.

End WithBackend.

End ProgramDetails.

(** ** Sample data *)

Definition prg1 : Program :=
  {| id := "p1"; name := "Prg1"; title := "Alpha";
     description := "First program"; created_at := "2024-01-01T00:00:00Z" |}.

Definition prg2 : Program :=
  {| id := "p2"; name := "Prg2"; title := "Beta";
     description := "Second program"; created_at := "2024-01-02T00:00:00Z" |}.

Definition prg0 : Program :=
  {| id := "p0"; name := "Prg0"; title := "Zero";
     description := "Numbered from zero"; created_at := "2024-01-03T00:00:00Z" |}.

Definition base : string := "http://localhost:8001".

(** A mounted grid showing [prg1] and [prg2], nothing selected. *)
Definition grid12 : ProgramSelection.State :=
  {| ProgramSelection.programs := [prg1; prg2];
     ProgramSelection.selectedProgram := None;
     ProgramSelection.loading := false;
     ProgramSelection.fetching := false;
     ProgramSelection.posting := [];
     ProgramSelection.timers := [] |}.

(** The same grid after a click on the card of [prg1]: [prg1] is selected
    and its selection request is pending. *)
Definition grid12_pending : ProgramSelection.State :=
  {| ProgramSelection.programs := [prg1; prg2];
     ProgramSelection.selectedProgram := Some prg1;
     ProgramSelection.loading := false;
     ProgramSelection.fetching := false;
     ProgramSelection.posting := [prg1];
     ProgramSelection.timers := [] |}.

(** ** Observations on traces *)

(** How many elements of [l] satisfy [f]. *)
Definition tally {A : Type} (f : A -> bool) (l : list A) : nat :=
  List.length (filter f l).

Definition is_get (e : Effect) : bool :=
  match e with axios_get _ => true | _ => false end.

Definition is_post (e : Effect) : bool :=
  match e with axios_post _ _ => true | _ => false end.

Definition is_toast_success (e : Effect) : bool :=
  match e with toast_success _ => true | _ => false end.

Definition is_toast_error (e : Effect) : bool :=
  match e with toast_error _ => true | _ => false end.

Definition is_timeout (e : Effect) : bool :=
  match e with setTimeout _ _ => true | _ => false end.

Definition is_navigate (e : Effect) : bool :=
  match e with navigate _ => true | _ => false end.

(** Events of the selection screen, by kind. *)
Definition is_click (e : ProgramSelection.Event) : bool :=
  match e with ProgramSelection.CardClicked _ _ => true | _ => false end.

Definition is_post_resolved (e : ProgramSelection.Event) : bool :=
  match e with ProgramSelection.PostResolved _ => true | _ => false end.

Definition is_post_rejected (e : ProgramSelection.Event) : bool :=
  match e with ProgramSelection.PostRejected _ => true | _ => false end.

Definition is_list_rejected (e : ProgramSelection.Event) : bool :=
  match e with ProgramSelection.ProgramsRejected => true | _ => false end.

Definition is_timer_fired (e : ProgramSelection.Event) : bool :=
  match e with ProgramSelection.TimerFired _ => true | _ => false end.

(** Events of the details screen, by kind. *)
Definition is_settled (e : ProgramDetails.Event) : bool :=
  match e with
  | ProgramDetails.GetResolved _ _ | ProgramDetails.GetRejected _ => true
  | _ => false
  end.

Definition is_get_rejected (e : ProgramDetails.Event) : bool :=
  match e with ProgramDetails.GetRejected _ => true | _ => false end.

Definition is_back (e : ProgramDetails.Event) : bool :=
  match e with ProgramDetails.BackClicked => true | _ => false end.

Definition is_param_changed (e : ProgramDetails.Event) : bool :=
  match e with ProgramDetails.ParamChanged _ => true | _ => false end.

(** The record carried by the last resolved request of a trace, [init]
    when there is none. *)
Fixpoint last_resolved (evs : list ProgramDetails.Event) (init : option Program)
  : option Program :=
  match evs with
  | [] => init
  | ProgramDetails.GetResolved _ data :: rest => last_resolved rest (Some data)
  | _ :: rest => last_resolved rest init
  end.

(** An effect of the selection screen that refers to a program of [progs]:
    a selection POST for one of them, a timer capturing one of them, a
    navigation to the detail route of one of them. Other effects refer to
    no program. *)
Definition effect_in_grid (BACKEND_URL : string) (progs : list Program) (e : Effect)
  : Prop :=
  match e with
  | axios_post url body =>
      url = BACKEND_URL ++ "/api/select-program"
      /\ exists P, In P progs /\ program_id body = id P /\ program_name body = name P
  | setTimeout P delay => In P progs /\ delay = 1000
  | navigate path => exists P, In P progs /\ path = "/program/" ++ id P
  | _ => True
  end.

(** * Properties *)

(** ** JavaScript primitives *)

Section JSFacts.

Example replace_first_only : JS.replace "Prg" "" "PrgPrg7" = "Prg7".
Proof. reflexivity. Qed.

Example replace_inner : JS.replace "Prg" "" "1Prg2" = "12".
Proof. reflexivity. Qed.

Example parseInt_12px : JS.parseInt "  12px" = JS.Int 12.
Proof. reflexivity. Qed.

Example parseInt_hex : JS.parseInt "0x1f" = JS.Int 31.
Proof. reflexivity. Qed.

Example parseInt_neg : JS.parseInt "-14" = JS.Int (-14).
Proof. reflexivity. Qed.

Example parseInt_empty : JS.parseInt "" = JS.NaN.
Proof. reflexivity. Qed.

Example parseInt_word : JS.parseInt "Alpha" = JS.NaN.
Proof. reflexivity. Qed.

Example toString_now : JS.toString 1700000000000 = "1700000000000".
Proof. reflexivity. Qed.

Example toString_zero : JS.toString 0 = "0".
Proof. reflexivity. Qed.

Example parseInt_hex_needs_digits : JS.parseInt "0x" = JS.NaN.
Proof. reflexivity. Qed.

Example rem_sign_of_dividend : JS.rem (JS.Int (-1)) (JS.Int 15) = JS.Int (-1).
Proof. reflexivity. Qed.

Example get_out_of_range : JS.get [1; 2; 3] (JS.Int (-1)) = None.
Proof. reflexivity. Qed.

Example findIndex_absent : JS.findIndex (Z.eqb 7) [1; 2; 3] = JS.Int (-1).
Proof. reflexivity. Qed.

Lemma parseDigits_digit (R : Z) (c : ascii) (s : string) (acc v : Z) (seen : bool) :
  JS.digitValue R c = Some v ->
  JS.parseDigits R (String c s) acc seen = JS.parseDigits R s (acc * R + v) true.
Proof.
  intro Hc. cbn [JS.parseDigits]. now rewrite Hc.
Qed.

Ltac read_digit :=
  erewrite parseDigits_digit by (vm_compute; reflexivity).

Lemma parseDigits_of_uint_acc (d : Decimal.uint) (acc : positive) :
  JS.parseDigits 10 (NilEmpty.string_of_uint d) (Z.pos acc) true
  = Some (Z.pos (Pos.of_uint_acc d acc)).
Proof.
  revert acc.
  induction d; intro acc; cbn [NilEmpty.string_of_uint Pos.of_uint_acc];
    [ reflexivity | .. ];
    read_digit; rewrite <- IHd; f_equal; lia.
Qed.

Lemma parseDigits_of_uint (d : Decimal.uint) :
  JS.parseDigits 10 (NilEmpty.string_of_uint d) 0 true
  = Some (Z.of_N (Pos.of_uint d)).
Proof.
  induction d; cbn [NilEmpty.string_of_uint Pos.of_uint];
    [ reflexivity | .. ];
    read_digit;
    solve [ exact IHd | apply parseDigits_of_uint_acc ].
Qed.

Lemma parseDigits_seen (d : Decimal.uint) (acc : Z) :
  d <> Decimal.Nil ->
  JS.parseDigits 10 (NilEmpty.string_of_uint d) acc false
  = JS.parseDigits 10 (NilEmpty.string_of_uint d) acc true.
Proof.
  destruct d; intro Hd; [ contradiction | .. ];
    cbn [NilEmpty.string_of_uint]; now do 2 read_digit.
Qed.

(** A string of decimal digits has no white space to skip, no sign and no
    [0x] prefix, so [parseInt] reads it in radix 10. *)
Lemma parseInt_decimal (d : Decimal.uint) :
  d <> Decimal.Nil ->
  JS.parseInt (NilEmpty.string_of_uint d)
  = match JS.parseDigits 10 (NilEmpty.string_of_uint d) 0 false with
    | None => JS.NaN
    | Some v => JS.Int (1 * v)
    end
  /\ JS.parseInt (String "-" (NilEmpty.string_of_uint d))
  = match JS.parseDigits 10 (NilEmpty.string_of_uint d) 0 false with
    | None => JS.NaN
    | Some v => JS.Int (-1 * v)
    end.
Proof.
  destruct d as [|d|d|d|d|d|d|d|d|d|d]; intro Hd; [ contradiction | .. ];
    try (split; reflexivity).
  destruct d; split; reflexivity.
Qed.

Lemma parseInt_of_uint (d : Decimal.uint) :
  d <> Decimal.Nil ->
  JS.parseInt (NilEmpty.string_of_uint d) = JS.Int (Z.of_N (Pos.of_uint d)).
Proof.
  intro Hd. destruct (parseInt_decimal d Hd) as [Hp _].
  rewrite Hp, parseDigits_seen, parseDigits_of_uint by assumption.
  f_equal; lia.
Qed.

Lemma parseInt_minus_of_uint (d : Decimal.uint) :
  d <> Decimal.Nil ->
  JS.parseInt (String "-" (NilEmpty.string_of_uint d))
  = JS.Int (- Z.of_N (Pos.of_uint d)).
Proof.
  intro Hd. destruct (parseInt_decimal d Hd) as [_ Hp].
  rewrite Hp, parseDigits_seen, parseDigits_of_uint by assumption.
  f_equal; lia.
Qed.

(** Reading back the decimal text of an integer gives the integer. *)
Lemma string_of_uint_to_uint (p : positive) :
  NilZero.string_of_uint (Pos.to_uint p) = NilEmpty.string_of_uint (Pos.to_uint p).
Proof.
  pose proof (Unsigned.to_uint_nonnil p) as Hp.
  destruct (Pos.to_uint p); [ contradiction | reflexivity .. ].
Qed.

Lemma parseInt_toString (z : Z) : JS.parseInt (JS.toString z) = JS.Int z.
Proof.
  destruct z as [|p|p]; [ reflexivity | | ];
    unfold JS.toString; cbn [Z.to_int NilZero.string_of_int];
    rewrite string_of_uint_to_uint.
  - rewrite parseInt_of_uint by apply Unsigned.to_uint_nonnil.
    now rewrite DecimalPos.Unsigned.of_to.
  - rewrite parseInt_minus_of_uint by apply Unsigned.to_uint_nonnil.
    now rewrite DecimalPos.Unsigned.of_to.
Qed.

Lemma append_assoc (a b c : string) : (a ++ b) ++ c = a ++ (b ++ c).
Proof.
  induction a as [|x a IH]; cbn [append]; [ reflexivity | now rewrite IH ].
Qed.

(** Replacing the first ["Prg"] of a name that starts with it leaves what
    follows the prefix. *)
Lemma replace_Prg_prefix (rest : string) :
  JS.replace "Prg" "" ("Prg" ++ rest) = rest.
Proof.
  destruct rest; reflexivity.
Qed.

(** [findIndex] with an identifier test finds a record at its own position
    when no earlier record shares the identifier. *)
Lemma findIndex_from_unique (l : list Program) :
  forall (i : nat) (k : Z) (p : Program),
    NoDup (map id l) ->
    nth_error l i = Some p ->
    JS.findIndex_from (fun q => String.eqb (id q) (id p)) l k = k + Z.of_nat i.
Proof.
  induction l as [|x l IH]; intros i k p Hnd Hi.
  - destruct i; discriminate.
  - inversion Hnd as [|? ? Hx Hl]; subst.
    destruct i as [|i]; cbn [nth_error] in Hi; cbn [JS.findIndex_from].
    + injection Hi as ->. rewrite String.eqb_refl. lia.
    + destruct (String.eqb (id x) (id p)) eqn:E.
      * apply String.eqb_eq in E. exfalso. apply Hx. rewrite E.
        apply in_map. eapply nth_error_In; eassumption.
      * rewrite (IH i (k + 1) p Hl Hi). lia.
Qed.

End JSFacts.

(** ** The ProgramSelection screen *)

Section SelectionFacts.

Import ProgramSelection.

Variable BACKEND_URL : string.

Lemma cards_rendered (s : State) :
  loading s = false -> cards s = map (renderCard s) (programs s).
Proof.
  intro Hl. unfold cards, render. now rewrite Hl.
Qed.

Lemma nth_card (s : State) (i : nat) (P : Program) :
  loading s = false ->
  nth_error (programs s) i = Some P ->
  nth_error (cards s) i = Some (renderCard s P).
Proof.
  intros Hl Hi. rewrite cards_rendered by assumption.
  now rewrite nth_error_map, Hi.
Qed.

Lemma click_card (s : State) (i : nat) (P : Program) (now : Z) :
  loading s = false ->
  nth_error (programs s) i = Some P ->
  step BACKEND_URL s (CardClicked i now)
  = Some (handleProgramSelect BACKEND_URL s P now).
Proof.
  intros Hl Hi. cbn [ProgramSelection.step]. unfold render. rewrite Hl.
  now rewrite nth_error_map, Hi.
Qed.

(** C1. Clicking the card of a program [P] of the rendered grid requests
    exactly one thing of the outside world: a POST to
    [{base}/api/select-program] whose body carries [P]'s id, [P]'s name and
    the session ["session_"] followed by the decimal text of the current
    time, from which that time can be read back. The request is then
    pending. *)
Theorem click_sends_one_selection_request
    (s : State) (i : nat) (P : Program) (now : Z) :
  loading s = false ->
  nth_error (programs s) i = Some P ->
  exists s' body,
    step BACKEND_URL s (CardClicked i now)
      = Some (s', [axios_post (BACKEND_URL ++ "/api/select-program") body])
    /\ program_id body = id P
    /\ program_name body = name P
    /\ user_session body = "session_" ++ JS.toString now
    /\ JS.parseInt (JS.drop 8 (user_session body)) = JS.Int now
    /\ posting s' = (posting s ++ [P])%list.
Proof.
  intros Hl Hi. rewrite (click_card s i P now Hl Hi).
  eexists. eexists. split.
  - unfold handleProgramSelect, API. rewrite append_assoc. reflexivity.
  - cbn. repeat split; try reflexivity. apply parseInt_toString.
Qed.

Lemma nth_error_snoc {A : Type} (l : list A) (x : A) :
  nth_error (l ++ [x]) (List.length l) = Some x.
Proof.
  rewrite nth_error_app2 by lia. now rewrite Nat.sub_diag.
Qed.

Lemma remove_nth_snoc {A : Type} (l : list A) (x : A) :
  remove_nth (List.length l) (l ++ [x]) = l.
Proof.
  unfold remove_nth.
  rewrite firstn_app, firstn_all, Nat.sub_diag, skipn_all2
    by (rewrite length_app; cbn; lia).
  cbn. now rewrite !app_nil_r.
Qed.

(** C2. When the selection request for [P] succeeds, the screen shows the
    success notification naming [P] and starts a timer of 1000 ms, the same
    delay for every program, and requests no navigation yet; when that
    timer fires, the screen navigates to [/program/] followed by [P]'s id. *)
Theorem selection_success_notifies_then_navigates
    (s : State) (k : nat) (P : Program) :
  nth_error (posting s) k = Some P ->
  exists s1 s2,
    step BACKEND_URL s (PostResolved k)
      = Some (s1, [toast_success ("Selected " ++ name P ++ " successfully!");
                   setTimeout P 1000])
    /\ timers s1 = (timers s ++ [P])%list
    /\ step BACKEND_URL s1 (TimerFired (List.length (timers s)))
      = Some (s2, [navigate ("/program/" ++ id P)])
    /\ timers s2 = timers s.
Proof.
  intro Hk. cbn [ProgramSelection.step]. rewrite Hk.
  eexists. eexists. split; [ reflexivity | ]. split; [ reflexivity | ].
  cbn [timers handleProgramSelect_then settle_post].
  rewrite nth_error_snoc. split; [ reflexivity | ].
  cbn [timers settle_timer]. apply remove_nth_snoc.
Qed.

(** C3. When the selection request for [P] fails, the screen shows the
    error notification, has no selected program any more (so neither [P]
    nor any other card is drawn selected), and neither starts a timer nor
    navigates. *)
Theorem selection_failure_notifies_and_reverts
    (s : State) (k : nat) (P : Program) :
  nth_error (posting s) k = Some P ->
  exists s',
    step BACKEND_URL s (PostRejected k)
      = Some (s', [toast_error "Failed to select program"])
    /\ selectedProgram s' = None
    /\ isSelected (selectedProgram s') P = false
    /\ (forall c, In c (cards s') -> card_selected c = false)
    /\ timers s' = timers s.
Proof.
  intro Hk. cbn [ProgramSelection.step]. rewrite Hk.
  eexists. split; [ reflexivity | ].
  repeat split; try reflexivity.
  intros c Hc. unfold cards, render in Hc. cbn in Hc.
  destruct (loading s); [ destruct Hc | ].
  apply in_map_iff in Hc. destruct Hc as [q [<- _]]. reflexivity.
Qed.

(** C10. The card of the program that is already selected is drawn selected
    with its inner button disabled, and its click handler still runs
    [handleProgramSelect]: each further click on the card posts one more
    selection request for that program, and the program stays selected. *)
Theorem click_on_selected_card_posts_again
    (nows : list Z) (s : State) (i : nat) (P : Program) :
  loading s = false ->
  nth_error (programs s) i = Some P ->
  selectedProgram s = Some P ->
  (exists c, nth_error (cards s) i = Some c
             /\ card_selected c = true
             /\ button_disabled c = true
             /\ onClick c = P)
  /\ exists s',
       run BACKEND_URL s (map (CardClicked i) nows)
         = Some (s', map (fun now =>
                            axios_post (API BACKEND_URL ++ "/select-program")
                              {| program_id := id P;
                                 program_name := name P;
                                 user_session := "session_" ++ JS.toString now |})
                         nows)
       /\ selectedProgram s' = Some P
       /\ posting s' = (posting s ++ repeat P (List.length nows))%list.
Proof.
  intros Hl Hi Hsel. split.
  - exists (renderCard s P). split; [ now apply nth_card | ].
    unfold renderCard; cbn. rewrite Hsel. cbn.
    now rewrite String.eqb_refl.
  - revert s Hl Hi Hsel.
    induction nows as [|now nows IH]; intros s Hl Hi Hsel.
    + exists s. cbn. now rewrite app_nil_r.
    + cbn [map ProgramSelection.run]. rewrite (click_card s i P now Hl Hi).
      destruct (IH (fst (handleProgramSelect BACKEND_URL s P now)))
        as [s' [Hrun [Hs' Hp]]]; try assumption; try reflexivity.
      cbn [handleProgramSelect fst] in Hrun, Hp |- *.
      rewrite Hrun. exists s'. repeat split; try assumption.
      rewrite Hp. cbn [posting List.length repeat].
      now rewrite <- app_assoc.
Qed.

Lemma gradient_at_position (l : list Program) (i : nat) (P : Program) :
  NoDup (map id l) ->
  nth_error l i = Some P ->
  gradientClass l P = nth_error gradients (i mod 15).
Proof.
  intros Hnd Hi. unfold gradientClass, programIndex, JS.findIndex.
  rewrite (findIndex_from_unique l i 0 P Hnd Hi).
  cbn [JS.length JS.rem gradients List.length]. cbn [Z.of_nat Pos.of_succ_nat Pos.succ Z.eqb].
  rewrite Z.add_0_l, Z.rem_mod_nonneg by lia.
  change 15 with (Z.of_nat 15). rewrite <- Nat2Z.inj_mod.
  unfold JS.get.
  destruct (Z.of_nat (i mod 15) <? 0) eqn:E; [ apply Z.ltb_lt in E; lia | ].
  now rewrite Nat2Z.id.
Qed.

(** C5. In a rendered grid whose programs have pairwise distinct ids, the
    card at position [i] gets the palette entry at index [i] modulo the
    palette length, which always exists; and any other render of the same
    list, whatever is selected at that moment, assigns the same gradients
    to the same positions. *)
Theorem grid_gradient_by_position
    (s : State) (i : nat) (c : Card) :
  loading s = false ->
  NoDup (map id (programs s)) ->
  nth_error (cards s) i = Some c ->
  card_gradient c = nth_error gradients (i mod List.length gradients)
  /\ (exists g, card_gradient c = Some g /\ In g gradients)
  /\ (forall s', loading s' = false ->
                 programs s' = programs s ->
                 map card_gradient (cards s') = map card_gradient (cards s)).
Proof.
  intros Hl Hnd Hc.
  rewrite cards_rendered, nth_error_map in Hc by assumption.
  destruct (nth_error (programs s) i) as [P|] eqn:Hi; [ | discriminate ].
  injection Hc as <-. cbn [card_gradient renderCard].
  assert (Hg : gradientClass (programs s) P = nth_error gradients (i mod 15))
    by now apply gradient_at_position.
  split; [ exact Hg | ]. split.
  - rewrite Hg.
    destruct (nth_error gradients (i mod 15)) as [g|] eqn:E.
    + exists g. split; [ reflexivity | ]. eapply nth_error_In; eassumption.
    + apply nth_error_None in E. cbn [gradients List.length] in E.
      pose proof (Nat.mod_upper_bound i 15). lia.
  - intros s' Hl' Hp. rewrite !cards_rendered, !map_map by assumption.
    rewrite Hp. apply map_ext. intro q. cbn [card_gradient renderCard].
    now rewrite Hp.
Qed.

Lemma filter_selected_nothing (s : State) (l : list Program) :
  selectedProgram s = None ->
  filter card_selected (map (renderCard s) l) = [].
Proof.
  intro Hsel. induction l as [|x l IH]; [ reflexivity | ].
  cbn [map filter]. cbn [card_selected renderCard]. now rewrite Hsel.
Qed.

Lemma filter_selected_none (s : State) (Q : Program) (l : list Program) :
  selectedProgram s = Some Q ->
  ~ In (id Q) (map id l) ->
  filter card_selected (map (renderCard s) l) = [].
Proof.
  intros Hsel. induction l as [|x l IH]; intro Hn; [ reflexivity | ].
  cbn [map filter]. cbn [card_selected renderCard]. rewrite Hsel.
  cbn [isSelected].
  destruct (String.eqb (id Q) (id x)) eqn:E.
  - apply String.eqb_eq in E. exfalso. apply Hn. left. now rewrite E.
  - apply IH. intro H. apply Hn. now right.
Qed.

Lemma filter_selected_one (s : State) (Q : Program) (l : list Program) :
  selectedProgram s = Some Q ->
  NoDup (map id l) ->
  In Q l ->
  filter card_selected (map (renderCard s) l) = [renderCard s Q].
Proof.
  intros Hsel. induction l as [|x l IH]; intros Hnd Hin; [ destruct Hin | ].
  inversion Hnd as [|? ? Hx Hl]; subst.
  cbn [map filter]. cbn [card_selected renderCard]. rewrite Hsel.
  cbn [isSelected].
  destruct Hin as [-> | Hin].
  - rewrite String.eqb_refl. f_equal.
    eapply filter_selected_none; eassumption.
  - destruct (String.eqb (id Q) (id x)) eqn:E.
    + apply String.eqb_eq in E. exfalso. apply Hx. rewrite <- E.
      now apply in_map.
    + now apply IH.
Qed.

(** While the list request is pending nothing can be clicked, and a
    selected program is always one of the programs of the grid. *)
Lemma reachable_selected_in_grid (s : State) :
  reachable BACKEND_URL s ->
  (fetching s = true -> loading s = true /\ selectedProgram s = None)
  /\ (forall Q, selectedProgram s = Some Q -> loading s = false /\ In Q (programs s)).
Proof.
  induction 1 as [|s e s' out Hr [IHf IHs] Hstep].
  - cbn. split; [ now split | discriminate ].
  - destruct e; cbn [ProgramSelection.step] in Hstep.
    + destruct (fetching s) eqn:Hf; [ | discriminate ].
      injection Hstep as <- _. cbn. destruct (IHf eq_refl) as [_ Hn].
      split; [ discriminate | ]. intros Q HQ. rewrite Hn in HQ. discriminate.
    + destruct (fetching s) eqn:Hf; [ | discriminate ].
      injection Hstep as <- _. cbn. destruct (IHf eq_refl) as [_ Hn].
      split; [ discriminate | ]. intros Q HQ. rewrite Hn in HQ. discriminate.
    + unfold render in Hstep.
      destruct (loading s) eqn:Hl; [ discriminate | ].
      rewrite nth_error_map in Hstep.
      destruct (nth_error (programs s) i) as [P|] eqn:Hi; [ | discriminate ].
      injection Hstep as <- _. cbn. split.
      * intro Hf. destruct (IHf Hf) as [Hl' _]. congruence.
      * intros Q HQ. injection HQ as <-. split; [ assumption | ].
        eapply nth_error_In; eassumption.
    + destruct (nth_error (posting s) k); [ | discriminate ].
      injection Hstep as <- _. cbn. now split.
    + destruct (nth_error (posting s) k); [ | discriminate ].
      injection Hstep as <- _. cbn. split; [ | discriminate ].
      intro Hf. destruct (IHf Hf) as [Hl' _]. now split.
    + destruct (nth_error (timers s) k); [ | discriminate ].
      injection Hstep as <- _. cbn. now split.
Qed.

(** C8. In every reachable state of the screen at most one program is
    selected: two programs that both count as selected have the same id.
    On screen, when the programs of the grid have pairwise distinct ids, no
    card is drawn selected when nothing is selected, and exactly the card
    of the selected program otherwise. Clicking a card while earlier
    selection requests are pending makes that card's program the selected
    one, in place of whatever was selected, and leaves the earlier requests
    pending. *)
Theorem at_most_one_selected (s : State) :
  reachable BACKEND_URL s ->
  (forall P Q,
     isSelected (selectedProgram s) P = true ->
     isSelected (selectedProgram s) Q = true ->
     id P = id Q)
  /\ (NoDup (map id (programs s)) ->
      (List.length (filter card_selected (cards s)) <= 1)%nat
      /\ match selectedProgram s with
         | None => filter card_selected (cards s) = []
         | Some Q => filter card_selected (cards s) = [renderCard s Q]
         end)
  /\ (forall j c now,
        nth_error (cards s) j = Some c ->
        exists s' out,
          step BACKEND_URL s (CardClicked j now) = Some (s', out)
          /\ selectedProgram s' = Some (onClick c)
          /\ (forall P, isSelected (selectedProgram s') P = true ->
                        id P = id (onClick c))
          /\ (forall P, In P (posting s) -> In P (posting s'))).
Proof.
  intros Hr.
  destruct (reachable_selected_in_grid s Hr) as [_ Hsel].
  split; [ | split ].
  - intros P Q HP HQ. destruct (selectedProgram s) as [R|]; [ | discriminate ].
    cbn [isSelected] in HP, HQ.
    apply String.eqb_eq in HP, HQ. congruence.
  - intro Hnd.
    assert (Hcards :
      match selectedProgram s with
      | None => filter card_selected (cards s) = []
      | Some Q => filter card_selected (cards s) = [renderCard s Q]
      end).
    { destruct (selectedProgram s) as [Q|] eqn:E.
      - destruct (Hsel Q eq_refl) as [Hl Hin].
        rewrite cards_rendered by assumption.
        now apply filter_selected_one.
      - unfold cards, render. destruct (loading s); [ reflexivity | ].
        now apply filter_selected_nothing. }
    split; [ | exact Hcards ].
    destruct (selectedProgram s); rewrite Hcards; cbn; lia.
  - intros j c now Hj. cbn [ProgramSelection.step].
    unfold cards in Hj. destruct (render s) as [|cs]; [ destruct j; discriminate | ].
    rewrite Hj. eexists. eexists. split; [ reflexivity | ].
    cbn [handleProgramSelect selectedProgram posting isSelected].
    split; [ reflexivity | ]. split.
    + intros P HP. apply String.eqb_eq in HP. congruence.
    + intros P HP. apply in_or_app. now left.
Qed.

End SelectionFacts.

(** ** The ProgramDetails screen *)

Section DetailsFacts.

Import ProgramDetails.

Variable BACKEND_URL : string.

Lemma programIndex_of_number (p : Program) (n : Z) :
  name p = "Prg" ++ JS.toString n ->
  programIndex p = JS.Int (n - 1).
Proof.
  intro Hn. unfold programIndex.
  now rewrite Hn, replace_Prg_prefix, parseInt_toString.
Qed.

Lemma palette_lookup (k : Z) :
  0 <= k ->
  JS.get gradients (JS.rem (JS.Int k) (JS.length gradients))
  = nth_error gradients (Z.to_nat (k mod 15)).
Proof.
  intro Hk. cbn [JS.length JS.rem gradients List.length].
  cbn [Z.of_nat Pos.of_succ_nat Pos.succ Z.eqb].
  rewrite Z.rem_mod_nonneg by lia. unfold JS.get.
  pose proof (Z.mod_pos_bound k 15 ltac:(lia)) as Hb.
  destruct (k mod 15 <? 0) eqn:E; [ apply Z.ltb_lt in E; lia | reflexivity ].
Qed.

(** C6, as the code has it. For every record, the banner gradient depends
    on nothing but the record's name: two records with the same name get
    the same gradient, whatever their other fields. When the name is
    ["Prg"] followed by the decimal digits of a number [n] from 1 up to the
    largest safe integer, the index is [n - 1] and the banner gets the
    palette entry at [(n - 1)] modulo the palette length, which exists. *)
Theorem banner_gradient_from_name (p : Program) :
  (forall q, name q = name p -> gradientClass q = gradientClass p)
  /\ (forall n,
        name p = "Prg" ++ JS.toString n ->
        1 <= n <= JS.MAX_SAFE_INTEGER ->
        programIndex p = JS.Int (n - 1)
        /\ gradientClass p = nth_error gradients (Z.to_nat ((n - 1) mod 15))
        /\ (exists g, gradientClass p = Some g /\ In g gradients)).
Proof.
  split.
  - intros q Hq. unfold gradientClass, programIndex. now rewrite Hq.
  - intros n Hn Hrange.
    pose proof (programIndex_of_number p n Hn) as Hi.
    assert (Hg : gradientClass p = nth_error gradients (Z.to_nat ((n - 1) mod 15))).
    { unfold gradientClass. rewrite Hi. apply palette_lookup. lia. }
    split; [ exact Hi | ]. split; [ exact Hg | ].
    rewrite Hg.
    destruct (nth_error gradients (Z.to_nat ((n - 1) mod 15))) as [g|] eqn:E.
    + exists g. split; [ reflexivity | ]. eapply nth_error_In; eassumption.
    + apply nth_error_None in E. cbn [gradients List.length] in E.
      pose proof (Z.mod_pos_bound (n - 1) 15 ltac:(lia)). lia.
Qed.

Lemma rejected_keeps_program (s : State) (k : nat) (pid : string) :
  nth_error (fetching s) k = Some pid ->
  exists s',
    step BACKEND_URL s (GetRejected k)
      = Some (s', [toast_error "Failed to load program details"])
    /\ program s' = program s
    /\ loading s' = false.
Proof.
  intro Hk. cbn [ProgramDetails.step]. rewrite Hk.
  eexists. split; [ reflexivity | ]. now split.
Qed.

Lemma step_keeps_program (s s' : State) (e : Event) (out : list Effect) :
  step BACKEND_URL s e = Some (s', out) ->
  program s <> None ->
  program s' <> None.
Proof.
  intros Hstep Hp. destruct e; cbn [ProgramDetails.step] in Hstep.
  - unfold paramChanged in Hstep.
    destruct (String.eqb pid (programId s)); injection Hstep as <- _; exact Hp.
  - destruct (nth_error (fetching s) k); [ | discriminate ].
    injection Hstep as <- _. discriminate.
  - destruct (nth_error (fetching s) k); [ | discriminate ].
    injection Hstep as <- _. exact Hp.
  - destruct (render s); [ discriminate | | ]; injection Hstep as <- _; exact Hp.
Qed.

Lemma run_keeps_program (evs : list Event) :
  forall (s s' : State) (out : list Effect),
    run BACKEND_URL s evs = Some (s', out) ->
    program s <> None ->
    program s' <> None.
Proof.
  induction evs as [|e evs IH]; intros s s' out Hrun Hp; cbn [ProgramDetails.run] in Hrun.
  - injection Hrun as <- _. exact Hp.
  - destruct (step BACKEND_URL s e) as [[s1 out1]|] eqn:Hstep; [ | discriminate ].
    destruct (run BACKEND_URL s1 evs) as [[s2 out2]|] eqn:Hrest; [ | discriminate ].
    injection Hrun as <- _.
    eapply IH; [ eassumption | ]. eapply step_keeps_program; eassumption.
Qed.

Lemma run_resolved_has_program (evs : list Event) :
  forall (s s' : State) (out : list Effect),
    run BACKEND_URL s evs = Some (s', out) ->
    existsb is_resolved evs = true ->
    program s' <> None.
Proof.
  induction evs as [|e evs IH]; intros s s' out Hrun Hex; [ discriminate | ].
  cbn [ProgramDetails.run] in Hrun.
  destruct (step BACKEND_URL s e) as [[s1 out1]|] eqn:Hstep; [ | discriminate ].
  destruct (run BACKEND_URL s1 evs) as [[s2 out2]|] eqn:Hrest; [ | discriminate ].
  injection Hrun as <- _. cbn [existsb] in Hex.
  destruct (is_resolved e) eqn:He.
  - eapply run_keeps_program; [ eassumption | ].
    destruct e; try discriminate. cbn [ProgramDetails.step] in Hstep.
    destruct (nth_error (fetching s) k); [ | discriminate ].
    injection Hstep as <- _. discriminate.
  - eapply IH; eassumption.
Qed.

Lemma not_found_means_no_program (s : State) :
  render s = NotFoundView -> loading s = false /\ program s = None.
Proof.
  unfold render. destruct (loading s); [ discriminate | ].
  destruct (program s); [ discriminate | now split ].
Qed.

(** The not-found branch offers the back button, whose handler navigates to
    the path the route table gives to the selection screen. *)
Lemma not_found_offers_back_to_programs (s : State) :
  render s = NotFoundView ->
  step BACKEND_URL s BackClicked = Some (s, [navigate "/"])
  /\ In ("/", ProgramSelectionScreen) Routes.
Proof.
  intro Hv. cbn [ProgramDetails.step]. rewrite Hv.
  split; [ reflexivity | now left ].
Qed.

(** C9. A failed fetch leaves the loaded program as it was. After the first
    mount a failed fetch therefore leaves no program and the not-found
    branch is drawn. When the route parameter changes to [pid'] after [data]
    was loaded and the fetch for [pid'] fails, the details of [data] stay on
    screen, not the not-found branch. And whatever happened since the mount,
    the not-found branch is drawn only if no fetch of this screen has ever
    resolved. *)
Theorem failed_fetch_keeps_program (pid pid' : string) (data : Program) :
  pid' <> pid ->
  (forall s k req,
     nth_error (fetching s) k = Some req ->
     exists s',
       step BACKEND_URL s (GetRejected k)
         = Some (s', [toast_error "Failed to load program details"])
       /\ program s' = program s)
  /\ (exists s',
        run BACKEND_URL (fst (mount BACKEND_URL pid)) [GetRejected 0]
          = Some (s', [toast_error "Failed to load program details"])
        /\ program s' = None
        /\ render s' = NotFoundView)
  /\ (exists s' out,
        run BACKEND_URL (fst (mount BACKEND_URL pid))
            [GetResolved 0 data; ParamChanged pid'; GetRejected 0]
          = Some (s', out)
        /\ programId s' = pid'
        /\ program s' = Some data
        /\ render s' = render {| programId := pid; program := Some data;
                                 loading := false; fetching := [] |}
        /\ render s' <> NotFoundView)
  /\ (forall evs s out,
        run BACKEND_URL (fst (mount BACKEND_URL pid)) evs = Some (s, out) ->
        render s = NotFoundView ->
        existsb is_resolved evs = false).
Proof.
  intro Hne. split; [ | split; [ | split ] ].
  - intros s k req Hk.
    destruct (rejected_keeps_program s k req Hk) as [s' [Hstep [Hp _]]].
    exists s'. now split.
  - eexists. split; [ reflexivity | ]. now split.
  - apply String.eqb_neq in Hne.
    eexists. eexists. split.
    + cbn [ProgramDetails.run ProgramDetails.step mount fetchProgram fst
           fetching programId app nth_error settle_get remove_nth firstn skipn
           fetchProgram_then].
      unfold paramChanged. cbn [programId]. rewrite Hne.
      cbn [fetchProgram fst fetching programId app nth_error settle_get
           remove_nth firstn skipn fetchProgram_catch program loading].
      reflexivity.
    + cbn. repeat split; discriminate.
  - intros evs s out Hrun Hv.
    destruct (existsb is_resolved evs) eqn:E; [ | reflexivity ].
    exfalso.
    apply (run_resolved_has_program evs _ _ _ Hrun E).
    now apply not_found_means_no_program.
Qed.

End DetailsFacts.

(** C4, where the code departs from it. The screen is mounted for [p1] and
    loads [prg1]; the route parameter then changes to [p9], whose fetch
    fails. The error toast is shown, but the screen stays on the details of
    [prg1] instead of the not-found branch. *)
Theorem failed_refetch_shows_previous_program :
  exists s out,
    ProgramDetails.run base (fst (ProgramDetails.mount base "p1"))
      [ProgramDetails.GetResolved 0 prg1;
       ProgramDetails.ParamChanged "p9";
       ProgramDetails.GetRejected 0]
    = Some (s, out)
    /\ ProgramDetails.programId s = "p9"
    /\ In (toast_error "Failed to load program details") out
    /\ ProgramDetails.render s <> ProgramDetails.NotFoundView
    /\ ProgramDetails.render s
       = ProgramDetails.DetailsView
           {| ProgramDetails.details_gradient := Some "from-emerald-400 to-teal-500";
              ProgramDetails.details_name := "Prg1";
              ProgramDetails.details_title := "Alpha";
              ProgramDetails.details_description := "First program";
              ProgramDetails.details_id := "p1";
              ProgramDetails.details_created := "2024-01-01T00:00:00Z" |}.
Proof.
  eexists. eexists. split; [ reflexivity | ].
  cbn. repeat split; try discriminate. right. now left.
Qed.

(** C6 as stated fails: the record named [Prg0] has index -1, and the
    palette has no entry there. *)
Lemma banner_gradient_undefined_for_Prg0 :
  ProgramDetails.programIndex prg0 = JS.Int (-1)
  /\ ProgramDetails.gradientClass prg0 = None
  /\ ~ (forall p : Program,
          exists g, ProgramDetails.gradientClass p = Some g
                    /\ In g ProgramDetails.gradients).
Proof.
  split; [ reflexivity | ]. split; [ reflexivity | ].
  intro H. destruct (H prg0) as [g [Hg _]]. discriminate.
Qed.

(** ** The theorems at the sample data *)

Section SelectionWitnesses.

Import ProgramSelection.

Lemma grid12_ids_distinct : NoDup (map id (programs grid12)).
Proof.
  cbn. repeat constructor; cbn; intuition discriminate.
Defined.

Lemma grid12_reachable : reachable base grid12.
Proof.
  apply (reachable_step base (fst (mount base)) (ProgramsResolved [prg1; prg2])
           grid12 []); [ apply reachable_mount | reflexivity ].
Defined.

Lemma grid12_pending_reachable : reachable base grid12_pending.
Proof.
  apply (reachable_step base grid12 (CardClicked 0 1700000000000) grid12_pending
           [axios_post (API base ++ "/select-program")
              {| program_id := "p1"; program_name := "Prg1";
                 user_session := "session_1700000000000" |}]);
    [ apply grid12_reachable | reflexivity ].
Defined.

Lemma click_sends_one_selection_request_witness :
  loading grid12 = false
  /\ nth_error (programs grid12) 0 = Some prg1
  /\ exists s' body,
       step base grid12 (CardClicked 0 1700000000000)
         = Some (s', [axios_post (base ++ "/api/select-program") body])
       /\ program_id body = id prg1
       /\ program_name body = name prg1
       /\ user_session body = "session_" ++ JS.toString 1700000000000
       /\ JS.parseInt (JS.drop 8 (user_session body)) = JS.Int 1700000000000
       /\ posting s' = (posting grid12 ++ [prg1])%list.
Proof.
  split; [ reflexivity | ]. split; [ reflexivity | ].
  apply (click_sends_one_selection_request base grid12 0 prg1 1700000000000);
    reflexivity.
Defined.

Lemma selection_success_notifies_then_navigates_witness :
  nth_error (posting grid12_pending) 0 = Some prg1
  /\ exists s1 s2,
       step base grid12_pending (PostResolved 0)
         = Some (s1, [toast_success ("Selected " ++ name prg1 ++ " successfully!");
                      setTimeout prg1 1000])
       /\ timers s1 = (timers grid12_pending ++ [prg1])%list
       /\ step base s1 (TimerFired (List.length (timers grid12_pending)))
         = Some (s2, [navigate ("/program/" ++ id prg1)])
       /\ timers s2 = timers grid12_pending.
Proof.
  split; [ reflexivity | ].
  apply (selection_success_notifies_then_navigates base grid12_pending 0 prg1).
  reflexivity.
Defined.

Lemma selection_failure_notifies_and_reverts_witness :
  nth_error (posting grid12_pending) 0 = Some prg1
  /\ exists s',
       step base grid12_pending (PostRejected 0)
         = Some (s', [toast_error "Failed to select program"])
       /\ selectedProgram s' = None
       /\ isSelected (selectedProgram s') prg1 = false
       /\ (forall c, In c (cards s') -> card_selected c = false)
       /\ timers s' = timers grid12_pending.
Proof.
  split; [ reflexivity | ].
  apply (selection_failure_notifies_and_reverts base grid12_pending 0 prg1).
  reflexivity.
Defined.

Lemma grid_gradient_by_position_witness :
  loading grid12 = false
  /\ NoDup (map id (programs grid12))
  /\ nth_error (cards grid12) 1 = Some (renderCard grid12 prg2)
  /\ card_gradient (renderCard grid12 prg2)
     = nth_error gradients (1 mod List.length gradients)
  /\ (exists g, card_gradient (renderCard grid12 prg2) = Some g /\ In g gradients)
  /\ (forall s', loading s' = false ->
                 programs s' = programs grid12 ->
                 map card_gradient (cards s') = map card_gradient (cards grid12)).
Proof.
  split; [ reflexivity | ]. split; [ exact grid12_ids_distinct | ].
  split; [ reflexivity | ].
  apply (grid_gradient_by_position grid12 1 (renderCard grid12 prg2));
    [ reflexivity | exact grid12_ids_distinct | reflexivity ].
Defined.

Lemma at_most_one_selected_witness :
  reachable base grid12_pending
  /\ (forall P Q,
        isSelected (selectedProgram grid12_pending) P = true ->
        isSelected (selectedProgram grid12_pending) Q = true ->
        id P = id Q)
  /\ (NoDup (map id (programs grid12_pending)) ->
      (List.length (filter card_selected (cards grid12_pending)) <= 1)%nat
      /\ match selectedProgram grid12_pending with
         | None => filter card_selected (cards grid12_pending) = []
         | Some Q => filter card_selected (cards grid12_pending)
                     = [renderCard grid12_pending Q]
         end)
  /\ (forall j c now,
        nth_error (cards grid12_pending) j = Some c ->
        exists s' out,
          step base grid12_pending (CardClicked j now) = Some (s', out)
          /\ selectedProgram s' = Some (onClick c)
          /\ (forall P, isSelected (selectedProgram s') P = true ->
                        id P = id (onClick c))
          /\ (forall P, In P (posting grid12_pending) -> In P (posting s'))).
Proof.
  split; [ exact grid12_pending_reachable | ].
  apply (at_most_one_selected base grid12_pending).
  exact grid12_pending_reachable.
Defined.

Lemma click_on_selected_card_posts_again_witness :
  loading grid12_pending = false
  /\ nth_error (programs grid12_pending) 0 = Some prg1
  /\ selectedProgram grid12_pending = Some prg1
  /\ (exists c, nth_error (cards grid12_pending) 0 = Some c
                /\ card_selected c = true
                /\ button_disabled c = true
                /\ onClick c = prg1)
  /\ exists s',
       run base grid12_pending (map (CardClicked 0) [1700000000500; 1700000000900])
         = Some (s', map (fun now =>
                            axios_post (API base ++ "/select-program")
                              {| program_id := id prg1;
                                 program_name := name prg1;
                                 user_session := "session_" ++ JS.toString now |})
                         [1700000000500; 1700000000900])
       /\ selectedProgram s' = Some prg1
       /\ posting s'
          = (posting grid12_pending
             ++ repeat prg1 (List.length [1700000000500; 1700000000900]))%list.
Proof.
  split; [ reflexivity | ]. split; [ reflexivity | ]. split; [ reflexivity | ].
  apply (click_on_selected_card_posts_again base
           [1700000000500; 1700000000900] grid12_pending 0 prg1);
    reflexivity.
Defined.

(** Two cards clicked in a row, both requests succeeding: each success
    starts its own timer, and the two timers navigate one after the other,
    to the first program's route and then to the second's. *)
Example two_clicks_navigate_twice :
  exists s,
    run base grid12
      [CardClicked 0 1700000000000; CardClicked 1 1700000000400;
       PostResolved 0; PostResolved 0; TimerFired 0; TimerFired 0]
    = Some (s,
        [axios_post "http://localhost:8001/api/select-program"
           {| program_id := "p1"; program_name := "Prg1";
              user_session := "session_1700000000000" |};
         axios_post "http://localhost:8001/api/select-program"
           {| program_id := "p2"; program_name := "Prg2";
              user_session := "session_1700000000400" |};
         toast_success "Selected Prg1 successfully!"; setTimeout prg1 1000;
         toast_success "Selected Prg2 successfully!"; setTimeout prg2 1000;
         navigate "/program/p1"; navigate "/program/p2"])
    /\ selectedProgram s = Some prg2.
Proof.
  eexists. split; reflexivity.
Qed.

(** With a repeated id both cards find the first position, so the second
    card takes the first card's gradient. *)
Example repeated_id_shares_gradient :
  gradientClass [prg1; mkProgram "p1" "Prg2" "Beta" "Other" ""]
    (mkProgram "p1" "Prg2" "Beta" "Other" "")
  = Some "from-emerald-400 to-teal-500".
Proof. reflexivity. Qed.

End SelectionWitnesses.

Section DetailsWitnesses.

Import ProgramDetails.

Lemma banner_gradient_from_name_witness :
  name prg1 = "Prg" ++ JS.toString 1
  /\ 1 <= 1 <= JS.MAX_SAFE_INTEGER
  /\ (forall q, name q = name prg1 -> gradientClass q = gradientClass prg1)
  /\ programIndex prg1 = JS.Int (1 - 1)
  /\ gradientClass prg1 = nth_error gradients (Z.to_nat ((1 - 1) mod 15))
  /\ (exists g, gradientClass prg1 = Some g /\ In g gradients).
Proof.
  assert (Hr : 1 <= 1 <= JS.MAX_SAFE_INTEGER) by (unfold JS.MAX_SAFE_INTEGER; lia).
  split; [ reflexivity | ]. split; [ exact Hr | ].
  split; [ exact (proj1 (banner_gradient_from_name prg1)) | ].
  exact (proj2 (banner_gradient_from_name prg1) 1 eq_refl Hr).
Defined.

Lemma failed_fetch_keeps_program_witness :
  "p9" <> "p1"
  /\ (exists s' out,
        run base (fst (mount base "p1"))
            [GetResolved 0 prg1; ParamChanged "p9"; GetRejected 0]
          = Some (s', out)
        /\ programId s' = "p9"
        /\ program s' = Some prg1
        /\ render s' = render {| programId := "p1"; program := Some prg1;
                                 loading := false; fetching := [] |}
        /\ render s' <> NotFoundView).
Proof.
  assert (Hne : "p9" <> "p1") by discriminate.
  split; [ exact Hne | ].
  exact (proj1 (proj2 (proj2 (failed_fetch_keeps_program base "p1" "p9" prg1 Hne)))).
Defined.

Example banner_of_Prg16_wraps :
  gradientClass (mkProgram "x" "Prg16" "" "" "") = Some "from-emerald-400 to-teal-500".
Proof. reflexivity. Qed.

Example banner_of_Alpha_undefined :
  programIndex (mkProgram "x" "Alpha" "" "" "") = JS.NaN
  /\ gradientClass (mkProgram "x" "Alpha" "" "" "") = None.
Proof. split; reflexivity. Qed.

Example banner_of_negative_multiple :
  programIndex (mkProgram "x" "Prg-14" "" "" "") = JS.Int (-15)
  /\ gradientClass (mkProgram "x" "Prg-14" "" "" "") = Some "from-emerald-400 to-teal-500".
Proof. split; reflexivity. Qed.

(** First mount, fetch fails: the not-found branch, whose back button
    navigates to the selection screen's route. *)
Example first_fetch_failure_shows_not_found :
  exists s,
    run base (fst (mount base "p9")) [GetRejected 0; BackClicked]
    = Some (s, [toast_error "Failed to load program details"; navigate "/"])
    /\ render s = NotFoundView.
Proof.
  eexists. split; reflexivity.
Qed.

End DetailsWitnesses.

(** * Further properties of the two screens *)

Section TraceFacts.

Lemma tally_cons {A : Type} (f : A -> bool) (x : A) (l : list A) :
  tally f (x :: l) = ((if f x then 1 else 0) + tally f l)%nat.
Proof.
  unfold tally. cbn [filter]. now destruct (f x).
Qed.

Lemma tally_app {A : Type} (f : A -> bool) (l1 l2 : list A) :
  tally f (l1 ++ l2) = (tally f l1 + tally f l2)%nat.
Proof.
  unfold tally. now rewrite filter_app, length_app.
Qed.

Lemma remove_nth_length {A : Type} (k : nat) (l : list A) (x : A) :
  nth_error l k = Some x ->
  S (List.length (remove_nth k l)) = List.length l.
Proof.
  revert k. induction l as [|y l IH]; intros [|k] Hk; try discriminate.
  - reflexivity.
  - cbn [nth_error] in Hk. specialize (IH k Hk).
    unfold remove_nth in *. change (S (S (List.length (firstn k l ++ skipn (S k) l))) = S (List.length l)).
    now rewrite IH.
Qed.

Lemma remove_nth_In {A : Type} (k : nat) (l : list A) (x : A) :
  In x (remove_nth k l) -> In x l.
Proof.
  unfold remove_nth. intro H. apply in_app_or in H.
  rewrite <- (firstn_skipn k l). apply in_or_app.
  destruct H as [H|H]; [ now left | right ].
  change (skipn (S k) l) with (skipn (1 + k) l) in H.
  rewrite <- skipn_skipn in H.
  destruct (skipn k l) as [|y r]; [ destruct H | now right ].
Qed.

Lemma nth_error_middle {A : Type} (l r : list A) (x : A) :
  nth_error (l ++ x :: r) (List.length l) = Some x.
Proof.
  rewrite nth_error_app2 by lia. now rewrite Nat.sub_diag.
Qed.

Lemma remove_nth_middle {A : Type} (l r : list A) (x : A) :
  remove_nth (List.length l) (l ++ x :: r) = (l ++ r)%list.
Proof.
  unfold remove_nth.
  rewrite firstn_app, firstn_all, Nat.sub_diag.
  change (S (List.length l)) with (1 + List.length l)%nat.
  rewrite <- skipn_skipn, skipn_app, skipn_all, Nat.sub_diag.
  cbn. now rewrite app_nil_r.
Qed.

End TraceFacts.

(** ** More on the ProgramSelection screen *)

Section SelectionTraces.

Import ProgramSelection.

Variable BACKEND_URL : string.

Lemma run_cons (s s' : State) (e : Event) (evs : list Event) (out : list Effect) :
  run BACKEND_URL s (e :: evs) = Some (s', out) ->
  exists s1 out1 out2,
    step BACKEND_URL s e = Some (s1, out1)
    /\ run BACKEND_URL s1 evs = Some (s', out2)
    /\ out = (out1 ++ out2)%list.
Proof.
  cbn [ProgramSelection.run]. intro H.
  destruct (step BACKEND_URL s e) as [[s1 out1]|] eqn:Hstep; [ | discriminate ].
  destruct (run BACKEND_URL s1 evs) as [[s2 out2]|] eqn:Hrest; [ | discriminate ].
  injection H as <- <-. exists s1, out1, out2. now repeat split.
Qed.

(** X1. The screen first shows the loading view and asks once for
    [{base}/api/programs]. When the list arrives the grid has one card per
    program, in the order of the list: the card's key is the program's id,
    its title, badge and description are the program's name, title and
    description, its click handler is bound to that program, and no card is
    drawn selected. *)
Theorem grid_shows_one_card_per_program (data : list Program) :
  render (fst (mount BACKEND_URL)) = LoadingView
  /\ snd (mount BACKEND_URL) = [axios_get (BACKEND_URL ++ "/api/programs")]
  /\ exists s,
       run BACKEND_URL (fst (mount BACKEND_URL)) [ProgramsResolved data] = Some (s, [])
       /\ render s = GridView (cards s)
       /\ List.length (cards s) = List.length data
       /\ map key (cards s) = map id data
       /\ map onClick (cards s) = data
       /\ map card_title (cards s) = map name data
       /\ map card_badge (cards s) = map title data
       /\ map card_description (cards s) = map description data
       /\ (forall c, In c (cards s) ->
             card_selected c = false
             /\ button_disabled c = false
             /\ button_label c = "Select Program").
Proof.
  split; [ reflexivity | ]. split.
  - unfold mount, API. cbn [snd]. now rewrite append_assoc.
  - eexists. split; [ reflexivity | ].
    unfold cards, render. cbn [loading fetchPrograms_then fst mount programs].
    repeat split; try reflexivity.
    + apply length_map.
    + rewrite map_map. apply map_ext. reflexivity.
    + rewrite map_map. cbn [onClick renderCard]. apply map_id.
    + rewrite map_map. apply map_ext. reflexivity.
    + rewrite map_map. apply map_ext. reflexivity.
    + rewrite map_map. apply map_ext. reflexivity.
    + apply in_map_iff in H. destruct H as [p [<- _]]. reflexivity.
    + apply in_map_iff in H. destruct H as [p [<- _]]. reflexivity.
    + apply in_map_iff in H. destruct H as [p [<- _]]. reflexivity.
Qed.

(** X2. When the list request fails the screen shows one error toast and
    an empty grid, and from then on nothing can happen to it: no card to
    click, no request in flight, no timer, and no second attempt to load
    the list. *)
Theorem list_failure_leaves_empty_grid :
  exists s,
    run BACKEND_URL (fst (mount BACKEND_URL)) [ProgramsRejected]
      = Some (s, [toast_error "Failed to load programs"])
    /\ render s = GridView []
    /\ (forall e, step BACKEND_URL s e = None)
    /\ (forall evs s' out, run BACKEND_URL s evs = Some (s', out) -> evs = []).
Proof.
  eexists. split; [ reflexivity | ]. split; [ reflexivity | ].
  assert (Hdead : forall e,
            step BACKEND_URL (fst (fetchPrograms_catch (fst (mount BACKEND_URL)))) e = None).
  { intros [data| |i now|k|k|k]; try reflexivity; destruct i || destruct k; reflexivity. }
  split; [ exact Hdead | ].
  intros [|e evs] s' out Hrun; [ reflexivity | ].
  apply run_cons in Hrun. destruct Hrun as [s1 [out1 [out2 [Hstep _]]]].
  cbn [fst fetchPrograms_catch] in Hdead. rewrite Hdead in Hstep. discriminate.
Qed.

Lemma step_after_list (s s' : State) (e : Event) (out : list Effect) :
  step BACKEND_URL s e = Some (s', out) ->
  fetching s = false ->
  programs s' = programs s /\ loading s' = loading s /\ fetching s' = false.
Proof.
  intros Hstep Hf. destruct e; cbn [ProgramSelection.step] in Hstep.
  - rewrite Hf in Hstep. discriminate.
  - rewrite Hf in Hstep. discriminate.
  - destruct (render s); [ discriminate | ].
    destruct (nth_error cards0 i); [ | discriminate ].
    injection Hstep as <- _. now cbn.
  - destruct (nth_error (posting s) k); [ | discriminate ].
    injection Hstep as <- _. now cbn.
  - destruct (nth_error (posting s) k); [ | discriminate ].
    injection Hstep as <- _. now cbn.
  - destruct (nth_error (timers s) k); [ | discriminate ].
    injection Hstep as <- _. now cbn.
Qed.

Lemma step_no_get (s s' : State) (e : Event) (out : list Effect) :
  step BACKEND_URL s e = Some (s', out) -> tally is_get out = 0%nat.
Proof.
  intros Hstep. destruct e; cbn [ProgramSelection.step] in Hstep.
  - destruct (fetching s); [ | discriminate ]. now injection Hstep as _ <-.
  - destruct (fetching s); [ | discriminate ]. now injection Hstep as _ <-.
  - destruct (render s); [ discriminate | ].
    destruct (nth_error cards0 i); [ | discriminate ]. now injection Hstep as _ <-.
  - destruct (nth_error (posting s) k); [ | discriminate ]. now injection Hstep as _ <-.
  - destruct (nth_error (posting s) k); [ | discriminate ]. now injection Hstep as _ <-.
  - destruct (nth_error (timers s) k); [ | discriminate ]. now injection Hstep as _ <-.
Qed.

Lemma run_after_list (evs : list Event) :
  forall (s s' : State) (out : list Effect),
    run BACKEND_URL s evs = Some (s', out) ->
    fetching s = false ->
    programs s' = programs s /\ loading s' = loading s /\ fetching s' = false.
Proof.
  induction evs as [|e evs IH]; intros s s' out Hrun Hf.
  - cbn in Hrun. injection Hrun as <- _. now repeat split.
  - apply run_cons in Hrun. destruct Hrun as [s1 [out1 [out2 [Hstep [Hrest _]]]]].
    destruct (step_after_list s s1 e out1 Hstep Hf) as [Hp [Hl Hf1]].
    destruct (IH s1 s' out2 Hrest Hf1) as [Hp' [Hl' Hf']].
    repeat split; congruence.
Qed.

(** X3. The list is asked for on mount and never again: no event makes the
    screen issue a GET. Once the list request has settled, the programs of
    the grid and the loading flag stay as they are whatever happens next. *)
Theorem programs_fixed_once_list_settled
    (evs : list Event) (s s' : State) (out : list Effect) :
  run BACKEND_URL s evs = Some (s', out) ->
  tally is_get out = 0%nat
  /\ (fetching s = false ->
      programs s' = programs s /\ loading s' = loading s /\ fetching s' = false).
Proof.
  intro Hrun. split; [ | now apply (run_after_list evs s s' out) ].
  revert s s' out Hrun.
  induction evs as [|e evs IH]; intros s s' out Hrun.
  - cbn in Hrun. now injection Hrun as _ <-.
  - apply run_cons in Hrun. destruct Hrun as [s1 [out1 [out2 [Hstep [Hrest ->]]]]].
    rewrite tally_app, (step_no_get _ _ _ _ Hstep), (IH _ _ _ Hrest). reflexivity.
Qed.

Lemma step_accounting (s s' : State) (e : Event) (out : list Effect) :
  step BACKEND_URL s e = Some (s', out) ->
  tally is_post out = (if is_click e then 1 else 0)%nat
  /\ tally is_toast_success out = (if is_post_resolved e then 1 else 0)%nat
  /\ tally is_timeout out = (if is_post_resolved e then 1 else 0)%nat
  /\ tally is_toast_error out
     = ((if is_post_rejected e then 1 else 0) + (if is_list_rejected e then 1 else 0))%nat
  /\ tally is_navigate out = (if is_timer_fired e then 1 else 0)%nat
  /\ (List.length (posting s')
      + (if is_post_resolved e then 1 else 0) + (if is_post_rejected e then 1 else 0)
      = List.length (posting s) + (if is_click e then 1 else 0))%nat
  /\ (List.length (timers s') + (if is_timer_fired e then 1 else 0)
      = List.length (timers s) + (if is_post_resolved e then 1 else 0))%nat.
Proof.
  intros Hstep. destruct e; cbn [ProgramSelection.step] in Hstep.
  - destruct (fetching s); [ | discriminate ].
    injection Hstep as <- <-. cbn. repeat split; lia.
  - destruct (fetching s); [ | discriminate ].
    injection Hstep as <- <-. cbn. repeat split; lia.
  - destruct (render s); [ discriminate | ].
    destruct (nth_error cards0 i); [ | discriminate ].
    injection Hstep as <- <-.
    cbn -[Nat.add]. rewrite length_app. cbn. repeat split; lia.
  - destruct (nth_error (posting s) k) eqn:Hk; [ | discriminate ].
    injection Hstep as <- <-. apply remove_nth_length in Hk.
    cbn -[Nat.add]. rewrite length_app. cbn. repeat split; lia.
  - destruct (nth_error (posting s) k) eqn:Hk; [ | discriminate ].
    injection Hstep as <- <-. apply remove_nth_length in Hk.
    cbn. repeat split; lia.
  - destruct (nth_error (timers s) k) eqn:Hk; [ | discriminate ].
    injection Hstep as <- <-. apply remove_nth_length in Hk.
    cbn. repeat split; lia.
Qed.

Lemma run_accounting (evs : list Event) :
  forall (s s' : State) (out : list Effect),
    run BACKEND_URL s evs = Some (s', out) ->
    tally is_post out = tally is_click evs
    /\ tally is_toast_success out = tally is_post_resolved evs
    /\ tally is_timeout out = tally is_post_resolved evs
    /\ tally is_toast_error out
       = (tally is_post_rejected evs + tally is_list_rejected evs)%nat
    /\ tally is_navigate out = tally is_timer_fired evs
    /\ (List.length (posting s') + tally is_post_resolved evs + tally is_post_rejected evs
        = List.length (posting s) + tally is_click evs)%nat
    /\ (List.length (timers s') + tally is_timer_fired evs
        = List.length (timers s) + tally is_post_resolved evs)%nat.
Proof.
  induction evs as [|e evs IH]; intros s s' out Hrun.
  - cbn in Hrun. injection Hrun as <- <-. cbn. repeat split; lia.
  - apply run_cons in Hrun. destruct Hrun as [s1 [out1 [out2 [Hstep [Hrest ->]]]]].
    pose proof (step_accounting _ _ _ _ Hstep) as [A1 [A2 [A3 [A4 [A5 [A6 A7]]]]]].
    pose proof (IH _ _ _ Hrest) as [B1 [B2 [B3 [B4 [B5 [B6 B7]]]]]].
    rewrite !tally_app, !tally_cons. repeat split; lia.
Qed.

(** X4. Over any sequence of events the effects match the events one for
    one: one selection POST per click on a card, one success toast and one
    timer per selection request that succeeded, one error toast per request
    that failed (of either kind), one navigation per timer that fired. *)
Theorem selection_effects_match_events
    (evs : list Event) (s s' : State) (out : list Effect) :
  run BACKEND_URL s evs = Some (s', out) ->
  tally is_post out = tally is_click evs
  /\ tally is_toast_success out = tally is_post_resolved evs
  /\ tally is_timeout out = tally is_post_resolved evs
  /\ tally is_toast_error out
     = (tally is_post_rejected evs + tally is_list_rejected evs)%nat
  /\ tally is_navigate out = tally is_timer_fired evs.
Proof.
  intro Hrun.
  pose proof (run_accounting evs s s' out Hrun) as [B1 [B2 [B3 [B4 [B5 _]]]]].
  now repeat split.
Qed.

(** X5. From the mount on, every selection request settles at most once
    and every timer fires at most once: the requests still pending are the
    clicks not yet answered, the timers still pending are the successes
    whose timer has not fired, so there are never more navigations than
    successful selections, nor more answers than clicks. *)
Theorem selection_navigations_bounded
    (evs : list Event) (s : State) (out : list Effect) :
  run BACKEND_URL (fst (mount BACKEND_URL)) evs = Some (s, out) ->
  (List.length (posting s) + tally is_post_resolved evs + tally is_post_rejected evs
   = tally is_click evs)%nat
  /\ (List.length (timers s) + tally is_timer_fired evs = tally is_post_resolved evs)%nat
  /\ (tally is_navigate out <= tally is_toast_success out)%nat
  /\ (tally is_toast_success out <= tally is_post out)%nat.
Proof.
  intro Hrun.
  pose proof (run_accounting evs _ s out Hrun) as [B1 [B2 [B3 [B4 [B5 [B6 B7]]]]]].
  cbn [mount fst posting timers List.length] in B6, B7.
  repeat split; lia.
Qed.

(** What the screen keeps true from the mount on: nothing is in flight while
    the list is loading, and whatever is in flight later was captured from
    the grid. *)
Ltac split4 := split; [ | split; [ | split ] ].

Lemma step_in_grid (s s' : State) (e : Event) (out : list Effect) :
  (fetching s = true -> loading s = true /\ posting s = [] /\ timers s = []) ->
  (forall P, In P (posting s) -> In P (programs s)) ->
  (forall P, In P (timers s) -> In P (programs s)) ->
  step BACKEND_URL s e = Some (s', out) ->
  fetching s' = false
  /\ (forall P, In P (posting s') -> In P (programs s'))
  /\ (forall P, In P (timers s') -> In P (programs s'))
  /\ (forall x, In x out -> effect_in_grid BACKEND_URL (programs s') x).
Proof.
  intros Hload Hpost Htime Hstep.
  destruct e; cbn [ProgramSelection.step] in Hstep.
  - destruct (fetching s) eqn:Hf; [ | discriminate ].
    destruct (Hload eq_refl) as [_ [Hp Ht]].
    injection Hstep as <- <-. cbn. rewrite Hp, Ht.
    split4; [ reflexivity | intros ? Hn; destruct Hn .. ].
  - destruct (fetching s) eqn:Hf; [ | discriminate ].
    destruct (Hload eq_refl) as [_ [Hp Ht]].
    injection Hstep as <- <-. cbn. rewrite Hp, Ht.
    split4; [ reflexivity | intros ? Hn; destruct Hn .. | ].
    intros y [Hy|Hn]; [ subst y; exact I | destruct Hn ].
  - unfold render in Hstep. destruct (loading s) eqn:Hl; [ discriminate | ].
    rewrite nth_error_map in Hstep.
    destruct (nth_error (programs s) i) as [P|] eqn:Hi; [ | discriminate ].
    apply nth_error_In in Hi.
    injection Hstep as <- <-. cbn. split4.
    + destruct (fetching s); [ | reflexivity ].
      destruct (Hload eq_refl) as [Hl' _]. congruence.
    + intros Q HQ. apply in_app_or in HQ.
      destruct HQ as [HQ|[HQ|Hn]]; [ now apply Hpost | now subst Q | destruct Hn ].
    + assumption.
    + intros y [Hy|Hn]; [ subst y; cbn | destruct Hn ]. split.
      * unfold API. apply append_assoc.
      * exists P. split; [ assumption | now split ].
  - destruct (nth_error (posting s) k) as [P|] eqn:Hk; [ | discriminate ].
    apply nth_error_In in Hk.
    injection Hstep as <- <-. cbn. split4.
    + destruct (fetching s); [ | reflexivity ].
      destruct (Hload eq_refl) as [_ [Hp _]]. rewrite Hp in Hk. destruct Hk.
    + intros Q HQ. apply Hpost. eapply remove_nth_In; eassumption.
    + intros Q HQ. apply in_app_or in HQ.
      destruct HQ as [HQ|[HQ|Hn]]; [ now apply Htime | subst Q; now apply Hpost | destruct Hn ].
    + intros y [Hy|[Hy|Hn]]; [ subst y; exact I | subst y; cbn | destruct Hn ]. split; [ now apply Hpost | reflexivity ].
  - destruct (nth_error (posting s) k) as [P|] eqn:Hk; [ | discriminate ].
    apply nth_error_In in Hk.
    injection Hstep as <- <-. cbn. split4.
    + destruct (fetching s); [ | reflexivity ].
      destruct (Hload eq_refl) as [_ [Hp _]]. rewrite Hp in Hk. destruct Hk.
    + intros Q HQ. apply Hpost. eapply remove_nth_In; eassumption.
    + assumption.
    + intros y [Hy|Hn]; [ subst y; exact I | destruct Hn ].
  - destruct (nth_error (timers s) k) as [P|] eqn:Hk; [ | discriminate ].
    apply nth_error_In in Hk.
    injection Hstep as <- <-. cbn. split4.
    + destruct (fetching s); [ | reflexivity ].
      destruct (Hload eq_refl) as [_ [_ Ht]]. rewrite Ht in Hk. destruct Hk.
    + assumption.
    + intros Q HQ. apply Htime. eapply remove_nth_In; eassumption.
    + intros y [Hy|Hn]; [ subst y; cbn | destruct Hn ]. exists P. split; [ now apply Htime | reflexivity ].
Qed.

Lemma run_in_grid (evs : list Event) :
  forall (s s' : State) (out : list Effect),
    (fetching s = true -> loading s = true /\ posting s = [] /\ timers s = []) ->
    (forall P, In P (posting s) -> In P (programs s)) ->
    (forall P, In P (timers s) -> In P (programs s)) ->
    run BACKEND_URL s evs = Some (s', out) ->
    forall x, In x out -> effect_in_grid BACKEND_URL (programs s') x.
Proof.
  induction evs as [|e evs IH]; intros s s' out Hload Hpost Htime Hrun x Hx.
  - cbn in Hrun. injection Hrun as _ <-. destruct Hx.
  - apply run_cons in Hrun. destruct Hrun as [s1 [out1 [out2 [Hstep [Hrest ->]]]]].
    destruct (step_in_grid s s1 e out1 Hload Hpost Htime Hstep)
      as [Hf1 [Hpost1 [Htime1 Hout1]]].
    apply in_app_or in Hx. destruct Hx as [Hx|Hx].
    + destruct (run_after_list evs s1 s' out2 Hrest Hf1) as [Hp _].
      rewrite Hp. now apply Hout1.
    + apply (IH s1 s' out2); try assumption.
      intro Hf. congruence.
Qed.

(** X6. Whatever happens after the mount, every selection POST goes to
    [{base}/api/select-program] with the id and name of a program of the
    grid, every timer is set for 1000 ms, and every navigation goes to
    [/program/] followed by the id of a program of the grid. *)
Theorem selection_effects_refer_to_grid
    (evs : list Event) (s : State) (out : list Effect) :
  run BACKEND_URL (fst (mount BACKEND_URL)) evs = Some (s, out) ->
  (forall url body,
     In (axios_post url body) out ->
     url = BACKEND_URL ++ "/api/select-program"
     /\ exists P, In P (programs s)
                  /\ program_id body = id P /\ program_name body = name P)
  /\ (forall P delay, In (setTimeout P delay) out -> delay = 1000)
  /\ (forall path,
        In (navigate path) out ->
        exists P, In P (programs s) /\ path = "/program/" ++ id P).
Proof.
  intro Hrun.
  assert (Hall : forall x, In x out -> effect_in_grid BACKEND_URL (programs s) x).
  { apply (run_in_grid evs (fst (mount BACKEND_URL)) s out); try assumption.
    - intros _. now cbn.
    - intros P [].
    - intros P []. }
  split; [ | split ].
  - intros url body Hb. apply (Hall _ Hb).
  - intros P delay Ht. apply (Hall _ Ht).
  - intros path Hp. apply (Hall _ Hp).
Qed.

Lemma run_step (s s1 s2 : State) (e : Event) (evs : list Event)
    (out1 out2 out : list Effect) :
  step BACKEND_URL s e = Some (s1, out1) ->
  run BACKEND_URL s1 evs = Some (s2, out2) ->
  out = (out1 ++ out2)%list ->
  run BACKEND_URL s (e :: evs) = Some (s2, out).
Proof.
  intros Hstep Hrest ->. cbn [ProgramSelection.run]. now rewrite Hstep, Hrest.
Qed.

(** X7. Two cards are clicked one after the other and the first request
    fails while the second is still pending: the failure clears the
    selection although it is the second program that was selected, so no
    card is drawn selected while the second request is in flight; when that
    request then succeeds the screen still notifies and navigates to the
    second program. *)
Theorem earlier_failure_clears_later_selection
    (s : State) (i j : nat) (P Q : Program) (t1 t2 : Z) :
  loading s = false ->
  nth_error (programs s) i = Some P ->
  nth_error (programs s) j = Some Q ->
  exists s' out,
    run BACKEND_URL s
      [CardClicked i t1; CardClicked j t2; PostRejected (List.length (posting s))]
    = Some (s', out)
    /\ selectedProgram s' = None
    /\ (forall c, In c (cards s') -> card_selected c = false)
    /\ posting s' = (posting s ++ [Q])%list
    /\ exists s'',
         run BACKEND_URL s'
           [PostResolved (List.length (posting s)); TimerFired (List.length (timers s))]
         = Some (s'', [toast_success ("Selected " ++ name Q ++ " successfully!");
                       setTimeout Q 1000;
                       navigate ("/program/" ++ id Q)])
         /\ selectedProgram s'' = None.
Proof.
  intros Hl Hi Hj.
  eexists. eexists. split.
  - eapply run_step; [ apply (click_card BACKEND_URL s i P t1 Hl Hi) | | reflexivity ].
    eapply run_step; [ apply click_card; [ exact Hl | exact Hj ] | | reflexivity ].
    eapply run_step; [ | reflexivity | reflexivity ].
    cbn [ProgramSelection.step handleProgramSelect fst posting].
    rewrite <- app_assoc. cbn [app]. rewrite nth_error_middle. reflexivity.
  - cbn [handleProgramSelect_catch settle_post handleProgramSelect fst
         selectedProgram posting programs loading timers fetching].
    split; [ reflexivity | ]. split; [ | split ].
    + intros c Hc. unfold cards, render in Hc. cbn in Hc. rewrite Hl in Hc.
      apply in_map_iff in Hc. destruct Hc as [q [<- _]]. reflexivity.
    + rewrite <- ?app_assoc. cbn [app]. apply remove_nth_middle.
    + rewrite <- ?app_assoc. cbn [app]. rewrite remove_nth_middle.
      eexists. split.
      * eapply run_step.
        { cbn [ProgramSelection.step posting]. rewrite nth_error_middle. reflexivity. }
        { eapply run_step.
          - cbn [ProgramSelection.step handleProgramSelect_then settle_post fst timers].
            rewrite nth_error_snoc. reflexivity.
          - reflexivity.
          - reflexivity. }
        reflexivity.
      * reflexivity.
Qed.

(** X8. The session value of a selection request identifies the millisecond
    of the click and nothing else: two requests, for whatever programs,
    carry the same [user_session] exactly when [Date.now()] gave the same
    value at both clicks. *)
Theorem same_session_iff_same_millisecond
    (s1 s2 : State) (P Q : Program) (t1 t2 : Z) (url1 url2 : string)
    (b1 b2 : SelectBody) :
  snd (handleProgramSelect BACKEND_URL s1 P t1) = [axios_post url1 b1] ->
  snd (handleProgramSelect BACKEND_URL s2 Q t2) = [axios_post url2 b2] ->
  (user_session b1 = user_session b2 <-> t1 = t2).
Proof.
  intros H1 H2. cbn [handleProgramSelect snd] in H1, H2.
  injection H1 as _ <-. injection H2 as _ <-. cbn [user_session].
  split; [ | now intros -> ].
  intro H. apply (f_equal (JS.drop 8)) in H. cbn in H.
  apply (f_equal JS.parseInt) in H. rewrite !parseInt_toString in H.
  now injection H.
Qed.

Lemma findIndex_from_first (l : list Program) :
  forall (i : nat) (k : Z) (P : Program),
    nth_error l i = Some P ->
    exists m,
      (m <= i)%nat
      /\ JS.findIndex_from (fun q => String.eqb (id q) (id P)) l k = k + Z.of_nat m
      /\ (exists Q, nth_error l m = Some Q /\ id Q = id P)
      /\ (forall n R, (n < m)%nat -> nth_error l n = Some R -> id R <> id P).
Proof.
  induction l as [|x l IH]; intros i k P Hi; [ destruct i; discriminate | ].
  cbn [JS.findIndex_from].
  destruct (String.eqb (id x) (id P)) eqn:E.
  - exists 0%nat. split; [ lia | ]. split; [ lia | ]. split.
    + exists x. split; [ reflexivity | now apply String.eqb_eq ].
    + intros n R Hn. lia.
  - destruct i as [|i].
    + cbn in Hi. injection Hi as ->. rewrite String.eqb_refl in E. discriminate.
    + cbn [nth_error] in Hi.
      destruct (IH i (k + 1) P Hi) as [m [Hm [Hf [HQ Hbefore]]]].
      exists (S m). split; [ lia | ]. split; [ rewrite Hf; lia | ]. split.
      * exact HQ.
      * intros [|n] R Hn HR; cbn [nth_error] in HR.
        -- injection HR as <-. now apply String.eqb_neq.
        -- apply (Hbefore n R); [ lia | assumption ].
Qed.

(** X9. Whatever the ids, a card of the grid always gets a palette entry: the
    one at the position, modulo the palette length, of the first program of
    the list that has the card's id. A program whose id already occurs
    earlier in the list therefore takes the gradient of that earlier card,
    not the one of its own position. *)
Theorem grid_gradient_of_first_occurrence
    (l : list Program) (i : nat) (P : Program) :
  nth_error l i = Some P ->
  exists m,
    (m <= i)%nat
    /\ (exists Q, nth_error l m = Some Q /\ id Q = id P)
    /\ (forall n R, (n < m)%nat -> nth_error l n = Some R -> id R <> id P)
    /\ gradientClass l P = nth_error gradients (m mod 15)
    /\ exists g, gradientClass l P = Some g /\ In g gradients.
Proof.
  intro Hi.
  destruct (findIndex_from_first l i 0 P Hi) as [m [Hm [Hf [HQ Hbefore]]]].
  exists m. split; [ assumption | ]. split; [ assumption | ]. split; [ assumption | ].
  assert (Hg : gradientClass l P = nth_error gradients (m mod 15)).
  { unfold gradientClass, programIndex, JS.findIndex. rewrite Hf, Z.add_0_l.
    etransitivity; [ exact (palette_lookup (Z.of_nat m) ltac:(lia)) | ].
    change 15 with (Z.of_nat 15). now rewrite <- Nat2Z.inj_mod, Nat2Z.id. }
  split; [ exact Hg | ]. rewrite Hg.
  destruct (nth_error gradients (m mod 15)) as [g|] eqn:E.
  - exists g. split; [ reflexivity | ]. eapply nth_error_In; eassumption.
  - apply nth_error_None in E. cbn [gradients List.length] in E.
    pose proof (Nat.mod_upper_bound m 15). lia.
Qed.

End SelectionTraces.

(** ** More on the ProgramDetails screen *)

Section DetailsTraces.

Import ProgramDetails.

Variable BACKEND_URL : string.

Lemma details_run_cons (s s' : State) (e : Event) (evs : list Event)
    (out : list Effect) :
  run BACKEND_URL s (e :: evs) = Some (s', out) ->
  exists s1 out1 out2,
    step BACKEND_URL s e = Some (s1, out1)
    /\ run BACKEND_URL s1 evs = Some (s', out2)
    /\ out = (out1 ++ out2)%list.
Proof.
  cbn [ProgramDetails.run]. intro H.
  destruct (step BACKEND_URL s e) as [[s1 out1]|] eqn:Hstep; [ | discriminate ].
  destruct (run BACKEND_URL s1 evs) as [[s2 out2]|] eqn:Hrest; [ | discriminate ].
  injection H as <- <-. exists s1, out1, out2. now repeat split.
Qed.

Lemma details_step_facts (s s' : State) (e : Event) (out : list Effect) :
  step BACKEND_URL s e = Some (s', out) ->
  loading s' = (if is_settled e then false else loading s)
  /\ program s' = last_resolved [e] (program s)
  /\ tally is_toast_error out = (if is_get_rejected e then 1 else 0)%nat
  /\ tally is_navigate out = (if is_back e then 1 else 0)%nat
  /\ tally is_post out = 0%nat
  /\ tally is_timeout out = 0%nat
  /\ tally is_toast_success out = 0%nat
  /\ (tally is_get out + List.length (fetching s)
      = List.length (fetching s') + (if is_settled e then 1 else 0))%nat.
Proof.
  intro Hstep. destruct e; cbn [ProgramDetails.step] in Hstep.
  - unfold paramChanged in Hstep.
    destruct (String.eqb pid (programId s)); injection Hstep as <- <-.
    + cbn. repeat split; lia.
    + cbn -[Nat.add]. rewrite length_app. cbn. repeat split; lia.
  - destruct (nth_error (fetching s) k) eqn:Hk; [ | discriminate ].
    injection Hstep as <- <-. apply remove_nth_length in Hk.
    cbn. repeat split; lia.
  - destruct (nth_error (fetching s) k) eqn:Hk; [ | discriminate ].
    injection Hstep as <- <-. apply remove_nth_length in Hk.
    cbn. repeat split; lia.
  - destruct (render s); [ discriminate | | ]; injection Hstep as <- <-;
      cbn; repeat split; lia.
Qed.

Lemma last_resolved_app (evs1 evs2 : list Event) (init : option Program) :
  last_resolved (evs1 ++ evs2) init = last_resolved evs2 (last_resolved evs1 init).
Proof.
  revert init. induction evs1 as [|e evs1 IH]; intro init; [ reflexivity | ].
  destruct e; cbn [app last_resolved]; apply IH.
Qed.

Lemma details_run_facts (evs : list Event) :
  forall (s s' : State) (out : list Effect),
    run BACKEND_URL s evs = Some (s', out) ->
    loading s' = (loading s && negb (existsb is_settled evs))%bool
    /\ program s' = last_resolved evs (program s)
    /\ tally is_toast_error out = tally is_get_rejected evs
    /\ tally is_navigate out = tally is_back evs
    /\ tally is_post out = 0%nat
    /\ tally is_timeout out = 0%nat
    /\ tally is_toast_success out = 0%nat
    /\ (tally is_get out + List.length (fetching s)
        = List.length (fetching s') + tally is_settled evs)%nat.
Proof.
  induction evs as [|e evs IH]; intros s s' out Hrun.
  - cbn in Hrun. injection Hrun as <- <-. cbn.
    rewrite andb_true_r. repeat split; lia.
  - apply details_run_cons in Hrun.
    destruct Hrun as [s1 [out1 [out2 [Hstep [Hrest ->]]]]].
    pose proof (details_step_facts _ _ _ _ Hstep)
      as [A1 [A2 [A3 [A4 [A5 [A6 [A7 A8]]]]]]].
    pose proof (IH _ _ _ Hrest) as [B1 [B2 [B3 [B4 [B5 [B6 [B7 B8]]]]]]].
    rewrite !tally_app, !tally_cons.
    split; [ | split; [ | repeat split; lia ] ].
    + rewrite B1, A1. cbn [existsb].
      destruct (is_settled e), (loading s), (existsb is_settled evs); reflexivity.
    + rewrite B2, A2. change (e :: evs) with ([e] ++ evs)%list.
      now rewrite last_resolved_app.
Qed.

(** X10. The loading view is shown from the mount until the first
    response, of whatever request, and never again: not while a later
    request, started by a change of the route parameter, is pending. The
    back button can be clicked exactly when the loading view is gone, and
    then navigates to [/]. *)
Theorem loading_until_first_response
    (pid : string) (evs : list Event) (s : State) (out : list Effect) :
  run BACKEND_URL (fst (mount BACKEND_URL pid)) evs = Some (s, out) ->
  loading s = negb (existsb is_settled evs)
  /\ (render s = LoadingView <-> existsb is_settled evs = false)
  /\ step BACKEND_URL s BackClicked
     = (if existsb is_settled evs then Some (s, [navigate "/"]) else None).
Proof.
  intro Hrun.
  pose proof (details_run_facts evs _ s out Hrun) as [Hl _].
  cbn [mount fetchProgram fst loading andb] in Hl.
  split; [ exact Hl | ].
  cbn [ProgramDetails.step]. unfold render. rewrite Hl.
  destruct (existsb is_settled evs); cbn [negb].
  - split.
    + split; [ destruct (program s); discriminate | discriminate ].
    + destruct (program s); reflexivity.
  - split; [ now split | reflexivity ].
Qed.

(** X11. The screen shows the record of the most recent request that
    resolved, whichever request that was and whatever the route parameter
    is by then; a failed request never changes what is shown. *)
Theorem shows_last_resolved_record
    (pid : string) (evs : list Event) (s : State) (out : list Effect) :
  run BACKEND_URL (fst (mount BACKEND_URL pid)) evs = Some (s, out) ->
  program s = last_resolved evs None
  /\ (forall data,
        last_resolved evs None = Some data ->
        render s
        = DetailsView
            {| details_gradient := gradientClass data;
               details_name := name data;
               details_title := title data;
               details_description := description data;
               details_id := id data;
               details_created := created_at data |})
  /\ (last_resolved evs None = None ->
      render s = LoadingView \/ render s = NotFoundView).
Proof.
  intro Hrun.
  pose proof (details_run_facts evs _ s out Hrun) as [Hl [Hp _]].
  cbn [mount fetchProgram fst loading program andb] in Hl, Hp.
  split; [ exact Hp | ]. split.
  - intros data Hd. unfold render. rewrite Hp, Hd.
    destruct (loading s) eqn:E; [ | reflexivity ].
    exfalso. symmetry in Hl. apply negb_true_iff in Hl.
    clear E. rename Hl into E.
    assert (Hnone : forall l init,
              existsb is_settled l = false -> last_resolved l init = init).
    { induction l as [|e l IH]; intros init Hex; [ reflexivity | ].
      cbn [existsb] in Hex. apply orb_false_iff in Hex. destruct Hex as [He Hex].
      destruct e; try discriminate; cbn [last_resolved]; now apply IH. }
    rewrite (Hnone evs None E) in Hd. discriminate.
  - intro Hn. unfold render. rewrite Hp, Hn.
    destruct (loading s); [ now left | now right ].
Qed.

Lemma details_step_gets (s s' : State) (e : Event) (out : list Effect) :
  step BACKEND_URL s e = Some (s', out) ->
  (tally is_get out <= (if is_param_changed e then 1 else 0))%nat.
Proof.
  intro Hstep. destruct e; cbn [ProgramDetails.step] in Hstep.
  - unfold paramChanged in Hstep.
    destruct (String.eqb pid (programId s)); injection Hstep as _ <-; cbn; lia.
  - destruct (nth_error (fetching s) k); [ | discriminate ].
    injection Hstep as _ <-. cbn. lia.
  - destruct (nth_error (fetching s) k); [ | discriminate ].
    injection Hstep as _ <-. cbn. lia.
  - destruct (render s); [ discriminate | | ]; injection Hstep as _ <-; cbn; lia.
Qed.

Lemma details_run_gets (evs : list Event) :
  forall (s s' : State) (out : list Effect),
    run BACKEND_URL s evs = Some (s', out) ->
    (tally is_get out <= tally is_param_changed evs)%nat.
Proof.
  induction evs as [|e evs IH]; intros s s' out Hrun.
  - cbn in Hrun. injection Hrun as _ <-. cbn. lia.
  - apply details_run_cons in Hrun.
    destruct Hrun as [s1 [out1 [out2 [Hstep [Hrest ->]]]]].
    pose proof (details_step_gets _ _ _ _ Hstep).
    pose proof (IH _ _ _ Hrest).
    rewrite tally_app, tally_cons. lia.
Qed.

(** X12. A request is never retried and never cancelled. Over any sequence
    of events the screen shows one error toast per failed request and
    navigates once per click on the back button; it issues a GET only when
    the route parameter changes, so the requests still pending are those
    issued and not yet answered; and it never posts, never starts a timer
    and never shows a success toast. *)
Theorem details_effects_match_events
    (evs : list Event) (s s' : State) (out : list Effect) :
  run BACKEND_URL s evs = Some (s', out) ->
  tally is_toast_error out = tally is_get_rejected evs
  /\ tally is_navigate out = tally is_back evs
  /\ (tally is_get out <= tally is_param_changed evs)%nat
  /\ (tally is_get out + List.length (fetching s)
      = List.length (fetching s') + tally is_settled evs)%nat
  /\ tally is_post out = 0%nat
  /\ tally is_timeout out = 0%nat
  /\ tally is_toast_success out = 0%nat.
Proof.
  intro Hrun.
  pose proof (details_run_facts evs s s' out Hrun)
    as [_ [_ [B3 [B4 [B5 [B6 [B7 B8]]]]]]].
  pose proof (details_run_gets evs s s' out Hrun).
  repeat split; assumption.
Qed.

(** X13. When the route parameter changes to a different identifier the
    screen asks for [{base}/api/programs/] followed by the new identifier
    and keeps drawing exactly what it drew before (the previous record, or
    the not-found branch, and no loading view) until a response arrives.
    When the parameter is set to the value it already has, nothing is
    requested. *)
Theorem param_change_refetches_without_loading_view (s : State) (pid : string) :
  exists s',
    step BACKEND_URL s (ParamChanged pid)
      = Some (s', if String.eqb pid (programId s) then []
                  else [axios_get (BACKEND_URL ++ "/api/programs/" ++ pid)])
    /\ programId s' = pid
    /\ render s' = render s
    /\ program s' = program s
    /\ fetching s'
       = (if String.eqb pid (programId s) then fetching s
          else fetching s ++ [pid])%list.
Proof.
  cbn [ProgramDetails.step]. unfold paramChanged.
  destruct (String.eqb pid (programId s)) eqn:E.
  - exists s. apply String.eqb_eq in E. now repeat split.
  - eexists. split.
    + unfold fetchProgram, API. cbn [programId]. rewrite append_assoc. reflexivity.
    + now repeat split.
Qed.

(** X14. Two requests can be in flight at once and their responses are
    taken in the order they arrive. The screen is mounted for [pid], the
    route parameter changes to [pid'], the request for [pid'] resolves with
    [d2] and only then the request for [pid] resolves with [d1]: the screen
    ends up drawing [d1], the record of the route it has left. *)
Theorem late_response_overrides_newer_record
    (pid pid' : string) (d1 d2 : Program) :
  pid' <> pid ->
  exists s,
    run BACKEND_URL (fst (mount BACKEND_URL pid))
      [ParamChanged pid'; GetResolved 1 d2; GetResolved 0 d1]
    = Some (s, [axios_get (BACKEND_URL ++ "/api/programs/" ++ pid')])
    /\ programId s = pid'
    /\ program s = Some d1
    /\ fetching s = []
    /\ render s
       = DetailsView
           {| details_gradient := gradientClass d1;
              details_name := name d1;
              details_title := title d1;
              details_description := description d1;
              details_id := id d1;
              details_created := created_at d1 |}.
Proof.
  intro Hne. apply String.eqb_neq in Hne.
  eexists. split.
  - cbn [ProgramDetails.run ProgramDetails.step mount fetchProgram fst].
    unfold paramChanged. cbn [programId]. rewrite Hne.
    cbn. unfold API. rewrite append_assoc. reflexivity.
  - cbn. now repeat split.
Qed.

(** X15. What the banner gets for each value of the index computed from
    the name, as long as the number read from the name is a safe integer
    (the range on which the index is computed exactly). No number in the
    name: no gradient. An index of zero or more: the palette entry at the
    index modulo the palette length. A negative index: the first palette
    entry when the index is a multiple of the palette length, and no
    gradient otherwise. *)
Theorem banner_gradient_by_index (p : Program) :
  (programIndex p = JS.NaN -> gradientClass p = None)
  /\ (forall k, programIndex p = JS.Int k ->
        0 <= k < JS.MAX_SAFE_INTEGER ->
        gradientClass p = nth_error gradients (Z.to_nat (k mod 15))
        /\ gradientClass p <> None)
  /\ (forall k, programIndex p = JS.Int k ->
        - JS.MAX_SAFE_INTEGER <= k + 1 <= 0 ->
        gradientClass p
        = if k mod 15 =? 0 then Some "from-emerald-400 to-teal-500" else None).
Proof.
  unfold gradientClass. split; [ | split ].
  - intros ->. reflexivity.
  - intros k -> [Hk _]. rewrite palette_lookup by assumption.
    split; [ reflexivity | ].
    intro E. apply nth_error_None in E. cbn [gradients List.length] in E.
    pose proof (Z.mod_pos_bound k 15 ltac:(lia)). lia.
  - intros k -> [_ Hk].
    cbn [JS.length JS.rem gradients List.length].
    cbn [Z.of_nat Pos.of_succ_nat Pos.succ Z.eqb].
    pose proof (Z.rem_bound_pos_neg k 15 ltac:(lia) ltac:(lia)) as Hb.
    assert (Hz : k mod 15 = 0 <-> Z.rem k 15 = 0).
    { rewrite Z.mod_divide, Z.rem_divide by lia. reflexivity. }
    unfold JS.get.
    destruct (k mod 15 =? 0) eqn:E.
    + apply Z.eqb_eq in E. apply Hz in E. rewrite E. reflexivity.
    + apply Z.eqb_neq in E.
      assert (Z.rem k 15 < 0) by (destruct (Z.eq_dec (Z.rem k 15) 0); [ tauto | lia ]).
      destruct (Z.rem k 15 <? 0) eqn:L; [ reflexivity | ].
      apply Z.ltb_ge in L. lia.
Qed.

End DetailsTraces.

(** ** Names, numbers and gradients *)

Section NamesAndGradients.

(** The decimal digits of a positive number do not start with a zero. *)
Lemma to_uint_no_leading_zero (p : positive) (d : Decimal.uint) :
  Pos.to_uint p <> Decimal.D0 d.
Proof.
  intro E.
  pose proof (DecimalPos.Unsigned.to_of (Pos.to_uint p)) as H.
  rewrite DecimalPos.Unsigned.of_to in H. cbn [N.to_uint] in H.
  rewrite E in H. rewrite DecimalFacts.unorm_D0 in H.
  unfold Decimal.unorm in H.
  destruct (Decimal.nzhead d) eqn:Hd;
    try (symmetry in H; revert H; rewrite <- Hd; apply DecimalFacts.nzhead_nonzero).
  injection H as ->.
  pose proof (DecimalPos.Unsigned.of_to p) as Hp. rewrite E in Hp. discriminate.
Qed.

Lemma parseDigits_acc_then_text
    (d : Decimal.uint) (acc : positive) (c : ascii) (rest : string) :
  JS.digitValue 10 c = None ->
  JS.parseDigits 10 (NilEmpty.string_of_uint d ++ String c rest) (Z.pos acc) true
  = Some (Z.pos (Pos.of_uint_acc d acc)).
Proof.
  intro Hc. revert acc.
  induction d; intro acc; cbn [NilEmpty.string_of_uint Pos.of_uint_acc append].
  - cbn [JS.parseDigits]. now rewrite Hc.
  - erewrite parseDigits_digit by (vm_compute; reflexivity). rewrite <- IHd. f_equal; lia.
  - erewrite parseDigits_digit by (vm_compute; reflexivity). rewrite <- IHd. f_equal; lia.
  - erewrite parseDigits_digit by (vm_compute; reflexivity). rewrite <- IHd. f_equal; lia.
  - erewrite parseDigits_digit by (vm_compute; reflexivity). rewrite <- IHd. f_equal; lia.
  - erewrite parseDigits_digit by (vm_compute; reflexivity). rewrite <- IHd. f_equal; lia.
  - erewrite parseDigits_digit by (vm_compute; reflexivity). rewrite <- IHd. f_equal; lia.
  - erewrite parseDigits_digit by (vm_compute; reflexivity). rewrite <- IHd. f_equal; lia.
  - erewrite parseDigits_digit by (vm_compute; reflexivity). rewrite <- IHd. f_equal; lia.
  - erewrite parseDigits_digit by (vm_compute; reflexivity). rewrite <- IHd. f_equal; lia.
  - erewrite parseDigits_digit by (vm_compute; reflexivity). rewrite <- IHd. f_equal; lia.
Qed.

Lemma parseInt_digits_then_text (d : Decimal.uint) (c : ascii) (rest : string) :
  d <> Decimal.Nil ->
  (forall d', d <> Decimal.D0 d') ->
  JS.digitValue 10 c = None ->
  JS.parseInt (NilEmpty.string_of_uint d ++ String c rest)
  = JS.Int (Z.of_N (Pos.of_uint d)).
Proof.
  intros Hnil Hzero Hc.
  destruct d as [|d|d|d|d|d|d|d|d|d|d];
    [ contradiction | exfalso; now apply (Hzero d) | .. ];
    cbn [NilEmpty.string_of_uint append Pos.of_uint Z.of_N].
  all: match goal with
       | |- JS.parseInt ?s = _ =>
           transitivity (match JS.parseDigits 10 s 0 false with
                         | None => JS.NaN
                         | Some v => JS.Int (1 * v)
                         end); [ reflexivity | ]
       end.
  all: erewrite parseDigits_digit by (vm_compute; reflexivity).
  all: cbn [Z.mul Z.add].
  all: rewrite (parseDigits_acc_then_text d _ c rest Hc).
  all: reflexivity.
Qed.

(** Text after the number is ignored by [parseInt]. *)
Lemma parseInt_toString_then_text (n : Z) (c : ascii) (rest : string) :
  1 <= n ->
  JS.digitValue 10 c = None ->
  JS.parseInt (JS.toString n ++ String c rest) = JS.Int n.
Proof.
  intros Hn Hc. destruct n as [|p|p]; try lia.
  unfold JS.toString. cbn [Z.to_int NilZero.string_of_int].
  rewrite string_of_uint_to_uint.
  rewrite parseInt_digits_then_text.
  - now rewrite DecimalPos.Unsigned.of_to.
  - apply DecimalPos.Unsigned.to_uint_nonnil.
  - intro d'. apply to_uint_no_leading_zero.
  - assumption.
Qed.

(** X16. Text that follows the number in the name does not count: a record
    named ["Prg"], then the decimal digits of [n] (from 1 up to the largest
    safe integer), then anything that starts with a character other than a
    decimal digit, gets the same index [n - 1] and the same banner gradient
    as the record named ["Prg"] followed by the digits alone. *)
Theorem banner_ignores_text_after_number
    (p : Program) (n : Z) (c : ascii) (rest : string) :
  name p = "Prg" ++ JS.toString n ++ String c rest ->
  JS.digitValue 10 c = None ->
  1 <= n <= JS.MAX_SAFE_INTEGER ->
  ProgramDetails.programIndex p = JS.Int (n - 1)
  /\ ProgramDetails.gradientClass p
     = nth_error ProgramDetails.gradients (Z.to_nat ((n - 1) mod 15))
  /\ (forall q, name q = "Prg" ++ JS.toString n ->
                ProgramDetails.gradientClass p = ProgramDetails.gradientClass q).
Proof.
  intros Hname Hc Hn.
  assert (Hi : ProgramDetails.programIndex p = JS.Int (n - 1)).
  { unfold ProgramDetails.programIndex.
    rewrite Hname, replace_Prg_prefix, parseInt_toString_then_text by (assumption || lia).
    reflexivity. }
  assert (Hg : ProgramDetails.gradientClass p
               = nth_error ProgramDetails.gradients (Z.to_nat ((n - 1) mod 15))).
  { unfold ProgramDetails.gradientClass. rewrite Hi. apply palette_lookup. lia. }
  split; [ exact Hi | ]. split; [ exact Hg | ].
  intros q Hq. rewrite Hg. symmetry.
  unfold ProgramDetails.gradientClass.
  rewrite (programIndex_of_number q n Hq). apply palette_lookup. lia.
Qed.

Lemma gradients_distinct : NoDup ProgramDetails.gradients.
Proof.
  unfold ProgramDetails.gradients.
  repeat (constructor; [ cbn; intuition discriminate | ]). constructor.
Qed.

(** X17. The grid colours a program by its position and the detail page by
    the number in its name. For a program at position [i] of a grid with
    pairwise distinct ids, named ["Prg"] followed by the digits of [n]
    (from 1 up to the largest safe integer), the two gradients are the same
    exactly when [i] and [n - 1] leave the same remainder modulo the palette
    length: in particular when the programs are named [Prg1], [Prg2], ... in
    the order of the list. *)
Theorem grid_and_banner_gradients_agree_iff
    (l : list Program) (i : nat) (P : Program) (n : Z) :
  NoDup (map id l) ->
  nth_error l i = Some P ->
  name P = "Prg" ++ JS.toString n ->
  1 <= n <= JS.MAX_SAFE_INTEGER ->
  (ProgramSelection.gradientClass l P = ProgramDetails.gradientClass P
   <-> Z.of_nat i mod 15 = (n - 1) mod 15)
  /\ (n = Z.of_nat i + 1 ->
      ProgramSelection.gradientClass l P = ProgramDetails.gradientClass P).
Proof.
  intros Hnd Hi Hname Hn.
  assert (Hgrid : ProgramSelection.gradientClass l P
                  = nth_error ProgramDetails.gradients (i mod 15))
    by exact (gradient_at_position l i P Hnd Hi).
  assert (Hbanner : ProgramDetails.gradientClass P
                    = nth_error ProgramDetails.gradients (Z.to_nat ((n - 1) mod 15))).
  { unfold ProgramDetails.gradientClass.
    rewrite (programIndex_of_number P n Hname). apply palette_lookup. lia. }
  assert (Hiff : ProgramSelection.gradientClass l P = ProgramDetails.gradientClass P
                 <-> Z.of_nat i mod 15 = (n - 1) mod 15).
  { rewrite Hgrid, Hbanner.
    pose proof (Nat.mod_upper_bound i 15 ltac:(lia)) as Hb.
    pose proof (Z.mod_pos_bound (n - 1) 15 ltac:(lia)) as Hb'.
    pose proof (Nat2Z.inj_mod i 15) as Hm. change (Z.of_nat 15) with 15 in Hm.
    rewrite <- Hm. split.
    - intro E.
      apply (proj1 (NoDup_nth_error ProgramDetails.gradients) gradients_distinct) in E;
        [ lia | exact Hb ].
    - intro E. f_equal. lia. }
  split; [ exact Hiff | ].
  intros ->. apply Hiff. f_equal. lia.
Qed.

End NamesAndGradients.

(** ** The further properties at the sample data *)

Section SelectionTraceWitnesses.

Import ProgramSelection.

Lemma programs_fixed_once_list_settled_witness :
  exists s' out,
    run base grid12 [CardClicked 0 1700000000000; PostResolved 0; TimerFired 0]
    = Some (s', out)
    /\ tally is_get out = 0%nat
    /\ (fetching grid12 = false ->
        programs s' = programs grid12
        /\ loading s' = loading grid12
        /\ fetching s' = false).
Proof.
  eexists. eexists. split; [ reflexivity | ].
  eapply (programs_fixed_once_list_settled base
           [CardClicked 0 1700000000000; PostResolved 0; TimerFired 0] grid12).
  reflexivity.
Defined.

Lemma selection_effects_match_events_witness :
  exists s' out,
    run base grid12
      [CardClicked 0 1700000000000; CardClicked 1 1700000000400;
       PostResolved 0; PostRejected 0; TimerFired 0]
    = Some (s', out)
    /\ tally is_post out = 2%nat
    /\ tally is_toast_success out = 1%nat
    /\ tally is_timeout out = 1%nat
    /\ tally is_toast_error out = 1%nat
    /\ tally is_navigate out = 1%nat.
Proof.
  eexists. eexists. split; [ reflexivity | ].
  eapply (selection_effects_match_events base
           [CardClicked 0 1700000000000; CardClicked 1 1700000000400;
            PostResolved 0; PostRejected 0; TimerFired 0] grid12).
  reflexivity.
Defined.

Lemma selection_navigations_bounded_witness :
  exists s out,
    run base (fst (mount base))
      [ProgramsResolved [prg1; prg2]; CardClicked 0 1700000000000;
       CardClicked 1 1700000000400; PostResolved 1; TimerFired 0]
    = Some (s, out)
    /\ (List.length (posting s) + 1 + 0 = 2)%nat
    /\ (List.length (timers s) + 1 = 1)%nat
    /\ (tally is_navigate out <= tally is_toast_success out)%nat
    /\ (tally is_toast_success out <= tally is_post out)%nat.
Proof.
  eexists. eexists. split; [ reflexivity | ].
  eapply (selection_navigations_bounded base
           [ProgramsResolved [prg1; prg2]; CardClicked 0 1700000000000;
            CardClicked 1 1700000000400; PostResolved 1; TimerFired 0]).
  reflexivity.
Defined.

Lemma selection_effects_refer_to_grid_witness :
  exists s out,
    run base (fst (mount base))
      [ProgramsResolved [prg1; prg2]; CardClicked 1 1700000000400;
       PostResolved 0; TimerFired 0]
    = Some (s, out)
    /\ (forall url body,
          In (axios_post url body) out ->
          url = base ++ "/api/select-program"
          /\ exists P, In P (programs s)
                       /\ program_id body = id P /\ program_name body = name P)
    /\ (forall P delay, In (setTimeout P delay) out -> delay = 1000)
    /\ (forall path,
          In (navigate path) out ->
          exists P, In P (programs s) /\ path = "/program/" ++ id P).
Proof.
  eexists. eexists. split; [ reflexivity | ].
  eapply (selection_effects_refer_to_grid base
           [ProgramsResolved [prg1; prg2]; CardClicked 1 1700000000400;
            PostResolved 0; TimerFired 0]).
  reflexivity.
Defined.

Lemma earlier_failure_clears_later_selection_witness :
  loading grid12 = false
  /\ nth_error (programs grid12) 0 = Some prg1
  /\ nth_error (programs grid12) 1 = Some prg2
  /\ exists s' out,
       run base grid12
         [CardClicked 0 1700000000000; CardClicked 1 1700000000400;
          PostRejected (List.length (posting grid12))]
       = Some (s', out)
       /\ selectedProgram s' = None
       /\ (forall c, In c (cards s') -> card_selected c = false)
       /\ posting s' = (posting grid12 ++ [prg2])%list
       /\ exists s'',
            run base s'
              [PostResolved (List.length (posting grid12));
               TimerFired (List.length (timers grid12))]
            = Some (s'', [toast_success ("Selected " ++ name prg2 ++ " successfully!");
                          setTimeout prg2 1000;
                          navigate ("/program/" ++ id prg2)])
            /\ selectedProgram s'' = None.
Proof.
  split; [ reflexivity | ]. split; [ reflexivity | ]. split; [ reflexivity | ].
  apply (earlier_failure_clears_later_selection base grid12 0 1 prg1 prg2
           1700000000000 1700000000400); reflexivity.
Defined.

Lemma same_session_iff_same_millisecond_witness :
  snd (handleProgramSelect base grid12 prg1 1700000000000)
  = [axios_post (API base ++ "/select-program")
       {| program_id := "p1"; program_name := "Prg1";
          user_session := "session_1700000000000" |}]
  /\ snd (handleProgramSelect base grid12_pending prg2 1700000000000)
     = [axios_post (API base ++ "/select-program")
          {| program_id := "p2"; program_name := "Prg2";
             user_session := "session_1700000000000" |}]
  /\ ("session_1700000000000" = "session_1700000000000"
      <-> 1700000000000 = 1700000000000).
Proof.
  split; [ reflexivity | ]. split; [ reflexivity | ].
  apply (same_session_iff_same_millisecond base grid12 grid12_pending prg1 prg2
           1700000000000 1700000000000
           (API base ++ "/select-program") (API base ++ "/select-program")
           {| program_id := "p1"; program_name := "Prg1";
              user_session := "session_1700000000000" |}
           {| program_id := "p2"; program_name := "Prg2";
              user_session := "session_1700000000000" |});
    reflexivity.
Defined.

Lemma grid_gradient_of_first_occurrence_witness :
  nth_error [prg1; prg2; mkProgram "p1" "Prg3" "Gamma" "Same id as the first" ""] 2
  = Some (mkProgram "p1" "Prg3" "Gamma" "Same id as the first" "")
  /\ exists m,
       (m <= 2)%nat
       /\ (exists Q,
             nth_error [prg1; prg2; mkProgram "p1" "Prg3" "Gamma" "Same id as the first" ""] m
             = Some Q
             /\ id Q = id (mkProgram "p1" "Prg3" "Gamma" "Same id as the first" ""))
       /\ (forall n R,
             (n < m)%nat ->
             nth_error [prg1; prg2; mkProgram "p1" "Prg3" "Gamma" "Same id as the first" ""] n
             = Some R ->
             id R <> id (mkProgram "p1" "Prg3" "Gamma" "Same id as the first" ""))
       /\ gradientClass [prg1; prg2; mkProgram "p1" "Prg3" "Gamma" "Same id as the first" ""]
            (mkProgram "p1" "Prg3" "Gamma" "Same id as the first" "")
          = nth_error gradients (m mod 15)
       /\ exists g,
            gradientClass [prg1; prg2; mkProgram "p1" "Prg3" "Gamma" "Same id as the first" ""]
              (mkProgram "p1" "Prg3" "Gamma" "Same id as the first" "")
            = Some g
            /\ In g gradients.
Proof.
  split; [ reflexivity | ].
  apply (grid_gradient_of_first_occurrence
           [prg1; prg2; mkProgram "p1" "Prg3" "Gamma" "Same id as the first" ""] 2
           (mkProgram "p1" "Prg3" "Gamma" "Same id as the first" "")).
  reflexivity.
Defined.

End SelectionTraceWitnesses.

Section DetailsTraceWitnesses.

Import ProgramDetails.

Lemma loading_until_first_response_witness :
  exists s out,
    run base (fst (mount base "p1"))
      [GetResolved 0 prg1; ParamChanged "p9"]
    = Some (s, out)
    /\ loading s = negb (existsb is_settled [GetResolved 0 prg1; ParamChanged "p9"])
    /\ (render s = LoadingView
        <-> existsb is_settled [GetResolved 0 prg1; ParamChanged "p9"] = false)
    /\ step base s BackClicked
       = (if existsb is_settled [GetResolved 0 prg1; ParamChanged "p9"]
          then Some (s, [navigate "/"]) else None).
Proof.
  eexists. eexists. split; [ reflexivity | ].
  eapply (loading_until_first_response base "p1"
           [GetResolved 0 prg1; ParamChanged "p9"]).
  reflexivity.
Defined.

Lemma shows_last_resolved_record_witness :
  exists s out,
    run base (fst (mount base "p1"))
      [GetResolved 0 prg1; ParamChanged "p9"; GetRejected 0]
    = Some (s, out)
    /\ program s
       = last_resolved [GetResolved 0 prg1; ParamChanged "p9"; GetRejected 0] None.
Proof.
  eexists. eexists. split; [ reflexivity | ].
  eapply (shows_last_resolved_record base "p1"
           [GetResolved 0 prg1; ParamChanged "p9"; GetRejected 0]).
  reflexivity.
Defined.

Lemma details_effects_match_events_witness :
  exists s' out,
    run base (fst (mount base "p1"))
      [GetResolved 0 prg1; ParamChanged "p9"; GetRejected 0; BackClicked]
    = Some (s', out)
    /\ tally is_toast_error out = 1%nat
    /\ tally is_navigate out = 1%nat
    /\ (tally is_get out <= 1)%nat
    /\ (tally is_get out + 1 = List.length (fetching s') + 2)%nat
    /\ tally is_post out = 0%nat
    /\ tally is_timeout out = 0%nat
    /\ tally is_toast_success out = 0%nat.
Proof.
  eexists. eexists. split; [ reflexivity | ].
  eapply (details_effects_match_events base
           [GetResolved 0 prg1; ParamChanged "p9"; GetRejected 0; BackClicked]
           (fst (mount base "p1"))).
  reflexivity.
Defined.

Lemma late_response_overrides_newer_record_witness :
  "p2" <> "p1"
  /\ exists s,
       run base (fst (mount base "p1"))
         [ParamChanged "p2"; GetResolved 1 prg2; GetResolved 0 prg1]
       = Some (s, [axios_get (base ++ "/api/programs/" ++ "p2")])
       /\ programId s = "p2"
       /\ program s = Some prg1
       /\ fetching s = []
       /\ render s
          = DetailsView
              {| details_gradient := gradientClass prg1;
                 details_name := name prg1;
                 details_title := title prg1;
                 details_description := description prg1;
                 details_id := id prg1;
                 details_created := created_at prg1 |}.
Proof.
  assert (Hne : "p2" <> "p1") by discriminate.
  split; [ exact Hne | ].
  exact (late_response_overrides_newer_record base "p1" "p2" prg1 prg2 Hne).
Defined.

Lemma banner_ignores_text_after_number_witness :
  name (mkProgram "p3" "Prg3 (beta)" "Gamma" "" "")
  = "Prg" ++ JS.toString 3 ++ String " " "(beta)"
  /\ JS.digitValue 10 " " = None
  /\ 1 <= 3 <= JS.MAX_SAFE_INTEGER
  /\ programIndex (mkProgram "p3" "Prg3 (beta)" "Gamma" "" "") = JS.Int (3 - 1)
  /\ gradientClass (mkProgram "p3" "Prg3 (beta)" "Gamma" "" "")
     = nth_error gradients (Z.to_nat ((3 - 1) mod 15))
  /\ (forall q, name q = "Prg" ++ JS.toString 3 ->
                gradientClass (mkProgram "p3" "Prg3 (beta)" "Gamma" "" "")
                = gradientClass q).
Proof.
  assert (Hr : 1 <= 3 <= JS.MAX_SAFE_INTEGER) by (unfold JS.MAX_SAFE_INTEGER; lia).
  split; [ reflexivity | ]. split; [ reflexivity | ]. split; [ exact Hr | ].
  apply (banner_ignores_text_after_number
           (mkProgram "p3" "Prg3 (beta)" "Gamma" "" "") 3 " " "(beta)");
    [ reflexivity | reflexivity | exact Hr ].
Defined.

Lemma grid_and_banner_gradients_agree_iff_witness :
  NoDup (map id [prg1; prg2])
  /\ nth_error [prg1; prg2] 1 = Some prg2
  /\ name prg2 = "Prg" ++ JS.toString 2
  /\ 1 <= 2 <= JS.MAX_SAFE_INTEGER
  /\ (ProgramSelection.gradientClass [prg1; prg2] prg2 = gradientClass prg2
      <-> Z.of_nat 1 mod 15 = (2 - 1) mod 15)
  /\ (2 = Z.of_nat 1 + 1 ->
      ProgramSelection.gradientClass [prg1; prg2] prg2 = gradientClass prg2).
Proof.
  assert (Hr : 1 <= 2 <= JS.MAX_SAFE_INTEGER) by (unfold JS.MAX_SAFE_INTEGER; lia).
  split; [ exact grid12_ids_distinct | ]. split; [ reflexivity | ].
  split; [ reflexivity | ]. split; [ exact Hr | ].
  apply (grid_and_banner_gradients_agree_iff [prg1; prg2] 1 prg2 2);
    [ exact grid12_ids_distinct | reflexivity | reflexivity | exact Hr ].
Defined.

Lemma banner_gradient_by_index_witness :
  gradientClass (mkProgram "a" "Alpha" "" "" "") = None
  /\ (gradientClass prg1 = nth_error gradients (Z.to_nat (0 mod 15))
      /\ gradientClass prg1 <> None)
  /\ gradientClass prg0 = None
  /\ gradientClass (mkProgram "m" "Prg-14" "" "" "")
     = Some "from-emerald-400 to-teal-500".
Proof.
  assert (H0 : 0 <= 0 < JS.MAX_SAFE_INTEGER) by (unfold JS.MAX_SAFE_INTEGER; lia).
  assert (H1 : - JS.MAX_SAFE_INTEGER <= -1 + 1 <= 0)
    by (unfold JS.MAX_SAFE_INTEGER; lia).
  assert (H15 : - JS.MAX_SAFE_INTEGER <= -15 + 1 <= 0)
    by (unfold JS.MAX_SAFE_INTEGER; lia).
  split; [ | split; [ | split ] ].
  - exact (proj1 (banner_gradient_by_index (mkProgram "a" "Alpha" "" "" "")) eq_refl).
  - exact (proj1 (proj2 (banner_gradient_by_index prg1)) 0 eq_refl H0).
  - exact (proj2 (proj2 (banner_gradient_by_index prg0)) (-1) eq_refl H1).
  - exact (proj2 (proj2 (banner_gradient_by_index (mkProgram "m" "Prg-14" "" "" "")))
             (-15) eq_refl H15).
Defined.

End DetailsTraceWitnesses.
